(** * check_cpu.py: a shallow embedding and its verified properties

    The Nagios plugin [check_cpu.py] reads [/proc/stat] twice, derives
    utilisation percentages per cpu id, compares them with thresholds and
    prints one status line.  This file embeds the four functions of the
    script that do the work ([get_procstat_now], [get_cpu_stats],
    [performance_data], [check_status]), the option loop of
    [command_line_validate] and [main], and states what they compute.

    Modelling conventions.
    - Python exceptions are values of [PyErr]; a function that may raise
      returns a [result].  Nothing in the script catches an exception, so
      a raised error ends the run; the one handler, for [GetoptError], ends
      the run itself.  The refusals of [int] (with its default limit on
      the number of digits), of [time.sleep] and of the division of
      integers are modelled, so that the model raises where the program
      does.
    - [getopt.getopt] is not modelled: [command_line_validate] takes what
      it returned, or the fact that it raised.
    - The module-level variables of the script are the fields of the
      records [Thresholds] (written by the option parser only) and
      [Globals] (written by the sampling functions); functions that declare
      them [global] take and return the record.
    - Dictionaries are [gmap string _].  Text is [string]; its characters
      stand for the code points below 256.
    - The two reads of the statistics file are the two text arguments of
      [get_cpu_stats].  Between them [time.sleep] either raises or
      returns; the time it takes is not modelled.
    - Python floats are modelled by exact rationals ([Q]): the rounding
      and the special values of IEEE doubles are outside the model.  A
      division of integers whose quotient no double can hold raises
      [OverflowError], as in the program.  How a float prints is a
      parameter ([repr_float]). *)

From Stdlib Require Import ZArith QArith Qabs List String Ascii Bool Lia.
From Stdlib Require Import DecimalString.
From stdpp Require Import base option gmap strings list.

Local Open Scope string_scope.
Local Open Scope list_scope.
Local Open Scope Z_scope.

(** ** Exceptions *)

Inductive PyErr : Type :=
  | UnboundLocalError (name : string)
  | IndexError
  | ValueError
  | KeyError (key : string)
  | TypeError
  | ZeroDivisionError
  | OverflowError.

Inductive result (A : Type) : Type :=
  | Ok (a : A)
  | Raise (e : PyErr).
Arguments Ok {A} a.
Arguments Raise {A} e.

#[global] Instance result_ret : MRet result := fun _ a => Ok a.
#[global] Instance result_bind : MBind result := fun _ _ f m =>
  match m with
  | Ok a => f a
  | Raise e => Raise e
  end.

Definition raises {A} (m : result A) : Prop := ∃ e, m = Raise e.
Definition succeeds {A} (m : result A) : Prop := ∃ a, m = Ok a.

Definition is_ok {A} (m : result A) : bool :=
  match m with Ok _ => true | Raise _ => false end.

(** [for x in xs: body] over a state, stopping at the first exception. *)
Fixpoint for_each {S A} (body : S → A → result S) (s : S) (xs : list A)
  : result S :=
  match xs with
  | [] => Ok s
  | x :: xs' => s' ← body s x; for_each body s' xs'
  end.

(** ** Strings, as the script uses them *)

Definition code (c : ascii) : Z := Z.of_N (N_of_ascii c).

(** Whitespace of [str.split()] among the code points below 256. *)
Definition is_space (c : ascii) : bool :=
  let n := code c in
  ((9 <=? n) && (n <=? 13)) || ((28 <=? n) && (n <=? 32))
  || (n =? 133) || (n =? 160).

(** [s.split()]: the maximal runs of non-whitespace characters. *)
Fixpoint py_split (s : string) : list string :=
  match s with
  | "" => []
  | String c s' =>
      if is_space c then py_split s'
      else match s' with
           | "" => [String c ""]
           | String c' _ =>
               if is_space c' then String c "" :: py_split s'
               else match py_split s' with
                    | w :: ws => String c w :: ws
                    | [] => [String c ""]
                    end
           end
  end.

Definition newline : ascii := "010"%char.

(** [s.split("\n")]: the pieces between line feeds, empty ones kept. *)
Fixpoint split_lines (s : string) : list string :=
  match s with
  | "" => [""]
  | String c s' =>
      if Ascii.eqb c newline then "" :: split_lines s'
      else match split_lines s' with
           | w :: ws => String c w :: ws
           | [] => [String c ""]
           end
  end.

Definition startswith (line pre : string) : bool := String.prefix pre line.

(** [sep.join(xs)] *)
Fixpoint join (sep : string) (xs : list string) : string :=
  match xs with
  | [] => ""
  | [x] => x
  | x :: xs' => x +:+ sep +:+ join sep xs'
  end.

(** [xs[i]] on a list. *)
Definition list_getitem {A} (xs : list A) (i : nat) : result A :=
  match xs !! i with
  | Some x => Ok x
  | None => Raise IndexError
  end.

(** [d[k]] on a dictionary. *)
Definition getitem {V} (d : gmap string V) (k : string) : result V :=
  match d !! k with
  | Some v => Ok v
  | None => Raise (KeyError k)
  end.

(** *** [int(tick)]

    Base-10 integer literals: an optional sign, then digits, where single
    underscores may separate digits.  The argument is always a field
    produced by [py_split], so it carries no surrounding whitespace.
    [int] refuses a literal of more than [int_max_str_digits] digits, the
    default of [sys.get_int_max_str_digits()]; leading zeros count, the
    sign and the underscores do not. *)

Definition digit_of (c : ascii) : option Z :=
  let n := code c in
  if (48 <=? n) && (n <=? 57) then Some (n - 48) else None.

Fixpoint int_digits (acc : Z) (after_digit : bool) (s : string) : option Z :=
  match s with
  | "" => if after_digit then Some acc else None
  | String c s' =>
      match digit_of c with
      | Some d => int_digits (acc * 10 + d) true s'
      | None =>
          if Ascii.eqb c "_"%char && after_digit
          then int_digits acc false s'
          else None
      end
  end.

Definition int_literal (s : string) : option Z :=
  match s with
  | String "+" s' => int_digits 0 false s'
  | String "-" s' => Z.opp <$> int_digits 0 false s'
  | _ => int_digits 0 false s
  end.

Definition int_max_str_digits : Z := 4300.

Fixpoint count_digits (s : string) : Z :=
  match s with
  | "" => 0
  | String c s' =>
      match digit_of c with
      | Some _ => 1 + count_digits s'
      | None => count_digits s'
      end
  end.

Definition py_int (s : string) : result Z :=
  match int_literal s with
  | Some z =>
      if int_max_str_digits <? count_digits s then Raise ValueError
      else Ok z
  | None => Raise ValueError
  end.

(** [[int(tick) for tick in cpu_ticks]] *)
Fixpoint int_all (fields : list string) : result (list Z) :=
  match fields with
  | [] => Ok []
  | f :: fs => z ← py_int f; zs ← int_all fs; Ok (z :: zs)
  end.

(** ** Values held by the dictionaries *)

(** [cpu_stats] holds integers under the cpu keys and the strings taken
    from [parts] under ['ctxt'] and ['processes']. *)
Inductive pyval : Type :=
  | VInt (z : Z)
  | VStr (s : string).

(** The percentage dictionaries hold the float of a true division or the
    integer [0]. *)
Inductive pynum : Type :=
  | PyInt (z : Z)
  | PyFloat (q : Q).

Definition num_value (n : pynum) : Q :=
  match n with
  | PyInt z => inject_Z z
  | PyFloat q => q
  end.

(** [a - b] on dictionary values. *)
Definition py_sub (a b : pyval) : result Z :=
  match a, b with
  | VInt x, VInt y => Ok (x - y)
  | _, _ => Raise TypeError
  end.

(** [float(v)].  On strings only integer literals are modelled: the
    strings that reach [float] are fields that [int] has accepted (lemma
    [scalars_are_literals] below).  [float] has no limit on the digits. *)
Definition py_float (v : pyval) : result Q :=
  match v with
  | VInt z => Ok (inject_Z z)
  | VStr s =>
      match int_literal s with
      | Some z => Ok (inject_Z z)
      | None => Raise ValueError
      end
  end.

(** [x / n] for a float [x] and an integer [n]. *)
Definition float_div_int (x : Q) (n : Z) : result Q :=
  if n =? 0 then Raise ZeroDivisionError else Ok (x / inject_Z n)%Q.

(** The least magnitude that rounds to no finite double: the largest
    double plus half the gap to the next power of two. *)
Definition float_overflow_bound : Z := 2 ^ 1024 - 2 ^ 970.

(** [n / d] for two integers: the true division raises [OverflowError]
    when the quotient is too large for a float. *)
Definition true_div (n d : Z) : result pynum :=
  if d =? 0 then Raise ZeroDivisionError
  else if float_overflow_bound * Z.abs d <=? Z.abs n then Raise OverflowError
  else Ok (PyFloat (inject_Z n / inject_Z d)%Q).

(** [time.sleep(secs)] for an integer: [OverflowError] when the
    nanoseconds do not fit a signed 64-bit integer, [ValueError] for a
    negative length; otherwise it returns after the wait. *)
Definition sleep_max : Z := 9223372036.

Definition time_sleep (secs : Z) : result unit :=
  if (secs <? - sleep_max) || (sleep_max <? secs) then Raise OverflowError
  else if secs <? 0 then Raise ValueError
  else Ok tt.

(** [x >= t] for a number and an integer threshold. *)
Definition ge_threshold (x : pynum) (t : Z) : bool :=
  Qle_bool (inject_Z t) (num_value x).

(** ** Module-level variables *)

(** Nagios return codes *)
Definition UNKNOWN : Z := 3.
Definition OK : Z := 0.
Definition WARNING : Z := 1.
Definition CRITICAL : Z := 2.

(** The variables that only [command_line_validate] assigns. *)
Record Thresholds : Type := {
  warn : Z;
  crit : Z;
  per_cpu_warn : Z;
  per_cpu_crit : Z;
  io_warn : Z;
  io_crit : Z;
  io_warn_overall : Z;
  io_crit_overall : Z;
  steal_warn : Z;
  steal_crit : Z;
  sample_period : Z;
  perfdata_abs : Z
}.

(** Their initial values (lines 65-77). *)
Definition defaults : Thresholds := {|
  warn := 95;
  crit := 98;
  per_cpu_warn := 98;
  per_cpu_crit := 100;
  io_warn := 90;
  io_crit := 98;
  io_warn_overall := 100;
  io_crit_overall := 100;
  steal_warn := 30;
  steal_crit := 80;
  sample_period := 1;
  perfdata_abs := 1
|}.

(** The variables the sampling functions assign. *)
Record Globals : Type := {
  cpu_percent : gmap string pynum;
  io_wait_percent : gmap string pynum;
  steal_percent : gmap string pynum;
  cpu_id_list : list string;
  ctxt_per_second : pynum;
  processes_per_second : pynum;
  cpu_stats_t1 : gmap string pyval
}.

(** Their initial values (lines 58-64). *)
Definition initial : Globals := {|
  cpu_percent := ∅;
  io_wait_percent := ∅;
  steal_percent := ∅;
  cpu_id_list := [];
  ctxt_per_second := PyInt 0;
  processes_per_second := PyInt 0;
  cpu_stats_t1 := ∅
|}.

Definition set_cpu_id_list (l : list string) (g : Globals) : Globals :=
  {| cpu_percent := cpu_percent g;
     io_wait_percent := io_wait_percent g;
     steal_percent := steal_percent g;
     cpu_id_list := l;
     ctxt_per_second := ctxt_per_second g;
     processes_per_second := processes_per_second g;
     cpu_stats_t1 := cpu_stats_t1 g |}.

Definition set_cpu_stats_t1 (d : gmap string pyval) (g : Globals) : Globals :=
  {| cpu_percent := cpu_percent g;
     io_wait_percent := io_wait_percent g;
     steal_percent := steal_percent g;
     cpu_id_list := cpu_id_list g;
     ctxt_per_second := ctxt_per_second g;
     processes_per_second := processes_per_second g;
     cpu_stats_t1 := d |}.

(** [cpu_percent[k] = v] *)
Definition set_cpu_percent (k : string) (v : pynum) (g : Globals) : Globals :=
  {| cpu_percent := <[k := v]> (cpu_percent g);
     io_wait_percent := io_wait_percent g;
     steal_percent := steal_percent g;
     cpu_id_list := cpu_id_list g;
     ctxt_per_second := ctxt_per_second g;
     processes_per_second := processes_per_second g;
     cpu_stats_t1 := cpu_stats_t1 g |}.

(** [io_wait_percent[k] = v] *)
Definition set_io_wait_percent (k : string) (v : pynum) (g : Globals)
  : Globals :=
  {| cpu_percent := cpu_percent g;
     io_wait_percent := <[k := v]> (io_wait_percent g);
     steal_percent := steal_percent g;
     cpu_id_list := cpu_id_list g;
     ctxt_per_second := ctxt_per_second g;
     processes_per_second := processes_per_second g;
     cpu_stats_t1 := cpu_stats_t1 g |}.

(** [steal_percent[k] = v] *)
Definition set_steal_percent (k : string) (v : pynum) (g : Globals)
  : Globals :=
  {| cpu_percent := cpu_percent g;
     io_wait_percent := io_wait_percent g;
     steal_percent := <[k := v]> (steal_percent g);
     cpu_id_list := cpu_id_list g;
     ctxt_per_second := ctxt_per_second g;
     processes_per_second := processes_per_second g;
     cpu_stats_t1 := cpu_stats_t1 g |}.

Definition set_per_second (c p : pynum) (g : Globals) : Globals :=
  {| cpu_percent := cpu_percent g;
     io_wait_percent := io_wait_percent g;
     steal_percent := steal_percent g;
     cpu_id_list := cpu_id_list g;
     ctxt_per_second := c;
     processes_per_second := p;
     cpu_stats_t1 := cpu_stats_t1 g |}.

(** ** [get_procstat_now] (lines 79-113) *)

(** The variables of the function that live across iterations of its
    loop: the dictionary being built, the global id list, and the local
    [parts], which is unbound until a cpu line has been split. *)
Record Locals : Type := {
  cpu_stats : gmap string pyval;
  ids : list string;
  parts : option (list string)
}.

(** [sum(cpu_ticks_array)] *)
Definition sum (xs : list Z) : Z := fold_left Z.add xs 0.

(** [while len(cpu_ticks_array) < 10: cpu_ticks_array.append(0)] *)
Definition pad_ticks (cpu_ticks_array : list Z) : list Z :=
  cpu_ticks_array ++ replicate (10 - length cpu_ticks_array)%nat 0.

(** Lines 102-112, with [cpu_id] and [cpu_ticks] taken from [parts_now]. *)
Definition record_cpu (st : Locals) (parts_now : list string)
  : result Locals :=
  cpu_id ← list_getitem parts_now 0;
  let cpu_ticks := drop 1 parts_now in
  cpu_ticks_array ← int_all cpu_ticks;
  let cpu_ticks_array := pad_ticks cpu_ticks_array in
  match cpu_ticks_array with
  | [user; nice; system; idle; io_wait; hw_intr; sw_intr; steal; guest;
     guest_nice] =>
      let cpu_usage := sum cpu_ticks_array - idle in
      let cpu_total_ticks := sum cpu_ticks_array in
      let d := cpu_stats st in
      let d := <[cpu_id := VInt cpu_usage]> d in
      let d := <[cpu_id +:+ "all" := VInt cpu_total_ticks]> d in
      let d := <[cpu_id +:+ "io_wait" := VInt io_wait]> d in
      let d := <[cpu_id +:+ "steal" := VInt steal]> d in
      Ok {| cpu_stats := d;
            ids := ids st ++ [cpu_id];
            parts := Some parts_now |}
  | _ => Raise ValueError
  end.

(** Lines 95 and 98: [cpu_stats[key] = parts[1]], with the [parts] that
    the last cpu line left behind. *)
Definition record_scalar (st : Locals) (key : string) : result Locals :=
  match parts st with
  | None => Raise (UnboundLocalError "parts")
  | Some ps =>
      v ← list_getitem ps 1;
      Ok {| cpu_stats := <[key := VStr v]> (cpu_stats st);
            ids := ids st;
            parts := parts st |}
  end.

(** The body of the loop over the lines (lines 86-112). *)
Definition procstat_line (st : Locals) (line : string) : result Locals :=
  if startswith line "cpu " then record_cpu st (py_split line)
  else if startswith line "cpu" then record_cpu st (py_split line)
  else if startswith line "ctxt" then record_scalar st "ctxt"
  else if startswith line "processes" then record_scalar st "processes"
  else Ok st.

Definition get_procstat_now (g : Globals) (procstat_text : string)
  : result (Globals * gmap string pyval) :=
  let st := {| cpu_stats := ∅; ids := []; parts := None |} in
  st ← for_each procstat_line st (split_lines procstat_text);
  Ok (set_cpu_id_list (ids st) g, cpu_stats st).

(** ** [get_cpu_stats] (lines 115-133) *)

(** The float that [n * 100 / delta_total] gives when it returns. *)
Definition percent_of (n delta_total : Z) : pynum :=
  PyFloat (inject_Z (n * 100) / inject_Z delta_total)%Q.

(** The body of the loop over [cpu_id_list] (lines 121-131). *)
Definition rate_step (cpu_stats_t0 cpu_stats_t1 : gmap string pyval)
    (g : Globals) (cpu_id : string) : result Globals :=
  total_t1 ← getitem cpu_stats_t1 (cpu_id +:+ "all");
  total_t0 ← getitem cpu_stats_t0 (cpu_id +:+ "all");
  delta_total ← py_sub total_t1 total_t0;
  if 0 <? delta_total then
    a1 ← getitem cpu_stats_t1 cpu_id;
    a0 ← getitem cpu_stats_t0 cpu_id;
    busy ← py_sub a1 a0;
    p ← true_div (busy * 100) delta_total;
    let g := set_cpu_percent cpu_id p g in
    w1 ← getitem cpu_stats_t1 (cpu_id +:+ "io_wait");
    w0 ← getitem cpu_stats_t0 (cpu_id +:+ "io_wait");
    io ← py_sub w1 w0;
    p ← true_div (io * 100) delta_total;
    let g := set_io_wait_percent cpu_id p g in
    s1 ← getitem cpu_stats_t1 (cpu_id +:+ "steal");
    s0 ← getitem cpu_stats_t0 (cpu_id +:+ "steal");
    st ← py_sub s1 s0;
    p ← true_div (st * 100) delta_total;
    Ok (set_steal_percent cpu_id p g)
  else
    Ok (set_steal_percent cpu_id (PyInt 0)
          (set_io_wait_percent cpu_id (PyInt 0)
             (set_cpu_percent cpu_id (PyInt 0) g))).

(** [(float(t1[key]) - float(t0[key])) / sample_period] (lines 132-133) *)
Definition per_second (cpu_stats_t0 cpu_stats_t1 : gmap string pyval)
    (key : string) (period : Z) : result pynum :=
  v1 ← getitem cpu_stats_t1 key;
  f1 ← py_float v1;
  v0 ← getitem cpu_stats_t0 key;
  f0 ← py_float v0;
  r ← float_div_int (f1 - f0)%Q period;
  Ok (PyFloat r).

Definition get_cpu_stats (th : Thresholds) (g : Globals)
    (text_t0 text_t1 : string) : result Globals :=
  '(g, cpu_stats_t0) ← get_procstat_now g text_t0;
  time_sleep (sample_period th);;
  '(g, t1) ← get_procstat_now g text_t1;
  let g := set_cpu_stats_t1 t1 g in
  g ← for_each (rate_step cpu_stats_t0 t1) g (cpu_id_list g);
  c ← per_second cpu_stats_t0 t1 "ctxt" (sample_period th);
  p ← per_second cpu_stats_t0 t1 "processes" (sample_period th);
  Ok (set_per_second c p g).

(** The snapshot a text yields, for texts that parse. *)
Definition snapshot (g : Globals) (procstat_text : string)
  : Globals * gmap string pyval :=
  match get_procstat_now g procstat_text with
  | Ok r => r
  | Raise _ => (g, ∅)
  end.

(** The variables after a sampling that returns. *)
Definition sampled (th : Thresholds) (g : Globals)
    (text_t0 text_t1 : string) : Globals :=
  match get_cpu_stats th g text_t0 text_t1 with
  | Ok g' => g'
  | Raise _ => g
  end.

(** ** Formatting *)

(** [str] of an integer, as an f-string inserts it. *)
Definition fmt_int (z : Z) : string := NilZero.string_of_int (Z.to_int z).

Section Reporting.

(** [repr] of a float; the conversion belongs to the Python runtime. *)
Variable repr_float : Q → string.

(** [f'{x}'] for a number. *)
Definition fmt (x : pynum) : string :=
  match x with
  | PyInt z => fmt_int z
  | PyFloat q => repr_float q
  end.

(** [f'{label}={value}%;{w};{c};0;100'] *)
Definition perf_token (label : string) (value : pynum) (w c : Z) : string :=
  label +:+ "=" +:+ fmt value +:+ "%;" +:+ fmt_int w +:+ ";" +:+ fmt_int c
  +:+ ";0;100".

(** ** [performance_data] (lines 135-142) *)

(** The body of the loop: three appends to [perf_message_array]. *)
Definition perf_step (th : Thresholds) (g : Globals)
    (perf_message_array : list string) (cpu_id : string)
  : result (list string) :=
  p ← getitem (cpu_percent g) cpu_id;
  let arr := perf_message_array
               ++ [perf_token cpu_id p (warn th) (crit th)] in
  w ← getitem (io_wait_percent g) cpu_id;
  let arr := arr ++ [perf_token (cpu_id +:+ "_iowait") w
                       (io_warn th) (io_crit th)] in
  s ← getitem (steal_percent g) cpu_id;
  Ok (arr ++ [perf_token (cpu_id +:+ "_steal") s
                (steal_warn th) (steal_crit th)]).

Definition perf_message_array (th : Thresholds) (g : Globals)
  : result (list string) :=
  for_each (perf_step th g) [] (cpu_id_list g).

Definition performance_data (th : Thresholds) (g : Globals)
  : result string :=
  arr ← perf_message_array th g;
  Ok (join " " arr).

(** ** [check_status] (lines 144-157) *)

Definition critical_message (cpu_id : string) (p : pynum) (c : Z) : string :=
  "CRITICAL: " +:+ cpu_id +:+ " CPU usage at " +:+ fmt p
  +:+ "% exceeds critical threshold of " +:+ fmt_int c +:+ "%".

Definition warning_message (cpu_id : string) (p : pynum) (w : Z) : string :=
  "WARNING: " +:+ cpu_id +:+ " CPU usage at " +:+ fmt p
  +:+ "% exceeds warning threshold of " +:+ fmt_int w +:+ "%".

(** The body of the loop: the state is [(result, messages)]. *)
Definition status_step (th : Thresholds) (g : Globals)
    (st : Z * list string) (cpu_id : string) : result (Z * list string) :=
  let '(result, messages) := st in
  p ← getitem (cpu_percent g) cpu_id;
  if ge_threshold p (crit th) then
    Ok (CRITICAL, messages ++ [critical_message cpu_id p (crit th)])
  else if ge_threshold p (warn th) then
    Ok (WARNING, messages ++ [warning_message cpu_id p (warn th)])
  else Ok (result, messages).

(** The loop of lines 146-154: the severity and the list of messages
    before the default message is added and the list joined. *)
Definition status_loop (th : Thresholds) (g : Globals)
  : result (Z * list string) :=
  for_each (status_step th g) (OK, []) (cpu_id_list g).

Definition check_status (th : Thresholds) (g : Globals)
  : result (Z * string) :=
  '(result, messages) ← status_loop th g;
  let messages :=
    match messages with
    | [] => messages ++ ["OK: CPU usage is within normal parameters"]
    | _ => messages
    end in
  Ok (result, join " " messages).

(** ** [main] (lines 197-204), after the options have been read

    The run yields the printed line and the exit code. *)
Definition main (th : Thresholds) (text_t0 text_t1 : string)
  : result (string * Z) :=
  g ← get_cpu_stats th initial text_t0 text_t1;
  perf_message ← performance_data th g;
  '(exit_code, result_message) ← check_status th g;
  Ok (result_message +:+ " | " +:+ perf_message, exit_code).

End Reporting.

(** ** [command_line_validate] (lines 159-195) *)

(** [Version] and [usage] (lines 20 and 32-55). *)
Definition Version : string := "1.7 $Id: 34e1f936687630763264047f56c1bfc9ea9c1dd3 $".

Definition usage : string := "usage: ./check_cpu.py [-w num|--warn=num] [-c|--crit=num] [-W num |--io-warn=num] [-C num|--io-crit=num] [-p num|--period=num]
    -w, --warn     ... generate warning  if total cpu exceeds num (default: 95)
    -c, --crit     ... generate critical if total cpu exceeds num (default: 98)
    -W, --warn-any ... generate warning  if any single cpu exceeds num (default: 98)
    -C, --crit-any ... generate critical if any single cpu exceeds num (default: 100 (off))
    -i, --io-warn  ... generate warning  if any single cpu exceeds num in io_wait (default: 90)
    -I, --io-crit  ... generate critical if any single cpu exceeds num in io_wait (default: 98)
        --io-warn-overall ... generate warning  if overall cpu exceeds num in io_wait (default: 100 (off))
        --io-crit-overall ... generate critical if overall cpu exceeds num in io_wait (default: 100 (off))
    -s, --steal-warn  ... generate warning  if any single cpu exceeds num in steal (default: 30)
    -S, --steal-crit  ... generate critical if any single cpu exceeds num in steal (default: 80)
    -p, --period   ... sample cpu usage over num seconds
    -a, --abs      ... generate performance stats in cpu-ticks (jiffies), as well as percent
    -A, --abs-only ... generate performance stats in cpu-ticks (jiffies), instead of percent
    -V, --version  ... print version

Notes:
    Warning/critical alerts are generated when the threshold is exceeded
    eg -w 95 means alert on 96% and above
    All values are in percent, but no % symbol is required
    A warning/critical will also be generated if any single cpu exceeds a threshold. Specify 100 to disable. eg.
         check_cpu.py -W 100 -C 100 
    'total' includes io_wait and steal (ie. everything except idle)
".

(** Assignments to the variables of [Thresholds]. *)
Definition set_warn (v : Z) (th : Thresholds) : Thresholds :=
  {| warn := v;
     crit := crit th;
     per_cpu_warn := per_cpu_warn th;
     per_cpu_crit := per_cpu_crit th;
     io_warn := io_warn th;
     io_crit := io_crit th;
     io_warn_overall := io_warn_overall th;
     io_crit_overall := io_crit_overall th;
     steal_warn := steal_warn th;
     steal_crit := steal_crit th;
     sample_period := sample_period th;
     perfdata_abs := perfdata_abs th |}.

Definition set_crit (v : Z) (th : Thresholds) : Thresholds :=
  {| warn := warn th;
     crit := v;
     per_cpu_warn := per_cpu_warn th;
     per_cpu_crit := per_cpu_crit th;
     io_warn := io_warn th;
     io_crit := io_crit th;
     io_warn_overall := io_warn_overall th;
     io_crit_overall := io_crit_overall th;
     steal_warn := steal_warn th;
     steal_crit := steal_crit th;
     sample_period := sample_period th;
     perfdata_abs := perfdata_abs th |}.

Definition set_per_cpu_warn (v : Z) (th : Thresholds) : Thresholds :=
  {| warn := warn th;
     crit := crit th;
     per_cpu_warn := v;
     per_cpu_crit := per_cpu_crit th;
     io_warn := io_warn th;
     io_crit := io_crit th;
     io_warn_overall := io_warn_overall th;
     io_crit_overall := io_crit_overall th;
     steal_warn := steal_warn th;
     steal_crit := steal_crit th;
     sample_period := sample_period th;
     perfdata_abs := perfdata_abs th |}.

Definition set_per_cpu_crit (v : Z) (th : Thresholds) : Thresholds :=
  {| warn := warn th;
     crit := crit th;
     per_cpu_warn := per_cpu_warn th;
     per_cpu_crit := v;
     io_warn := io_warn th;
     io_crit := io_crit th;
     io_warn_overall := io_warn_overall th;
     io_crit_overall := io_crit_overall th;
     steal_warn := steal_warn th;
     steal_crit := steal_crit th;
     sample_period := sample_period th;
     perfdata_abs := perfdata_abs th |}.

Definition set_io_warn (v : Z) (th : Thresholds) : Thresholds :=
  {| warn := warn th;
     crit := crit th;
     per_cpu_warn := per_cpu_warn th;
     per_cpu_crit := per_cpu_crit th;
     io_warn := v;
     io_crit := io_crit th;
     io_warn_overall := io_warn_overall th;
     io_crit_overall := io_crit_overall th;
     steal_warn := steal_warn th;
     steal_crit := steal_crit th;
     sample_period := sample_period th;
     perfdata_abs := perfdata_abs th |}.

Definition set_io_crit (v : Z) (th : Thresholds) : Thresholds :=
  {| warn := warn th;
     crit := crit th;
     per_cpu_warn := per_cpu_warn th;
     per_cpu_crit := per_cpu_crit th;
     io_warn := io_warn th;
     io_crit := v;
     io_warn_overall := io_warn_overall th;
     io_crit_overall := io_crit_overall th;
     steal_warn := steal_warn th;
     steal_crit := steal_crit th;
     sample_period := sample_period th;
     perfdata_abs := perfdata_abs th |}.

Definition set_io_warn_overall (v : Z) (th : Thresholds) : Thresholds :=
  {| warn := warn th;
     crit := crit th;
     per_cpu_warn := per_cpu_warn th;
     per_cpu_crit := per_cpu_crit th;
     io_warn := io_warn th;
     io_crit := io_crit th;
     io_warn_overall := v;
     io_crit_overall := io_crit_overall th;
     steal_warn := steal_warn th;
     steal_crit := steal_crit th;
     sample_period := sample_period th;
     perfdata_abs := perfdata_abs th |}.

Definition set_io_crit_overall (v : Z) (th : Thresholds) : Thresholds :=
  {| warn := warn th;
     crit := crit th;
     per_cpu_warn := per_cpu_warn th;
     per_cpu_crit := per_cpu_crit th;
     io_warn := io_warn th;
     io_crit := io_crit th;
     io_warn_overall := io_warn_overall th;
     io_crit_overall := v;
     steal_warn := steal_warn th;
     steal_crit := steal_crit th;
     sample_period := sample_period th;
     perfdata_abs := perfdata_abs th |}.

Definition set_steal_warn (v : Z) (th : Thresholds) : Thresholds :=
  {| warn := warn th;
     crit := crit th;
     per_cpu_warn := per_cpu_warn th;
     per_cpu_crit := per_cpu_crit th;
     io_warn := io_warn th;
     io_crit := io_crit th;
     io_warn_overall := io_warn_overall th;
     io_crit_overall := io_crit_overall th;
     steal_warn := v;
     steal_crit := steal_crit th;
     sample_period := sample_period th;
     perfdata_abs := perfdata_abs th |}.

Definition set_steal_crit (v : Z) (th : Thresholds) : Thresholds :=
  {| warn := warn th;
     crit := crit th;
     per_cpu_warn := per_cpu_warn th;
     per_cpu_crit := per_cpu_crit th;
     io_warn := io_warn th;
     io_crit := io_crit th;
     io_warn_overall := io_warn_overall th;
     io_crit_overall := io_crit_overall th;
     steal_warn := steal_warn th;
     steal_crit := v;
     sample_period := sample_period th;
     perfdata_abs := perfdata_abs th |}.

Definition set_sample_period (v : Z) (th : Thresholds) : Thresholds :=
  {| warn := warn th;
     crit := crit th;
     per_cpu_warn := per_cpu_warn th;
     per_cpu_crit := per_cpu_crit th;
     io_warn := io_warn th;
     io_crit := io_crit th;
     io_warn_overall := io_warn_overall th;
     io_crit_overall := io_crit_overall th;
     steal_warn := steal_warn th;
     steal_crit := steal_crit th;
     sample_period := v;
     perfdata_abs := perfdata_abs th |}.

Definition set_perfdata_abs (v : Z) (th : Thresholds) : Thresholds :=
  {| warn := warn th;
     crit := crit th;
     per_cpu_warn := per_cpu_warn th;
     per_cpu_crit := per_cpu_crit th;
     io_warn := io_warn th;
     io_crit := io_crit th;
     io_warn_overall := io_warn_overall th;
     io_crit_overall := io_crit_overall th;
     steal_warn := steal_warn th;
     steal_crit := steal_crit th;
     sample_period := sample_period th;
     perfdata_abs := v |}.

(** How [command_line_validate] can end: it returns, it leaves through
    [sys.exit] after printing, or an exception escapes it. *)
Inductive outcome (A : Type) : Type :=
  | Continue (a : A)
  | SysExit (printed : string) (code : Z)
  | Uncaught (e : PyErr).
Arguments Continue {A} a.
Arguments SysExit {A} printed code.
Arguments Uncaught {A} e.

(** [opt in (name1, name2)]: membership in a tuple of strings. *)
Definition in_tuple (opt : string) (names : list string) : bool :=
  existsb (String.eqb opt) names.

(** [opt in 'text']: on a string, [in] is the substring test. *)
Fixpoint in_string (opt text : string) : bool :=
  String.prefix opt text
  || match text with
     | "" => false
     | String _ text' => in_string opt text'
     end.

(** The whitespace that [int] skips around a literal, among the code
    points below 256.  The separators 28 to 31, which [str.split()]
    treats as whitespace, are not part of it. *)
Definition is_int_space (c : ascii) : bool :=
  let n := code c in
  ((9 <=? n) && (n <=? 13)) || (n =? 32) || (n =? 133) || (n =? 160).

Fixpoint lstrip (s : string) : string :=
  match s with
  | "" => ""
  | String c s' => if is_int_space c then lstrip s' else s
  end.

Fixpoint rstrip (s : string) : string :=
  match s with
  | "" => ""
  | String c s' =>
      match rstrip s' with
      | "" => if is_int_space c then "" else String c ""
      | r => String c r
      end
  end.

Definition strip (s : string) : string := rstrip (lstrip s).

(** [int(arg)] on an option value: [int] drops the surrounding
    whitespace before it reads the literal. *)
Definition int_arg (arg : string) : result Z := py_int (strip arg).

(** [variable = int(arg)] *)
Definition assign_int (set : Z → Thresholds → Thresholds) (arg : string)
    (th : Thresholds) : outcome Thresholds :=
  match int_arg arg with
  | Ok z => Continue (set z th)
  | Raise e => Uncaught e
  end.

(** The body of the loop over [opts] (lines 167-195). *)
Definition option_step (th : Thresholds) (oa : string * string)
  : outcome Thresholds :=
  let '(opt, arg) := oa in
  if in_tuple opt ["-w"; "--warn"] then assign_int set_warn arg th
  else if in_tuple opt ["-c"; "--crit"] then assign_int set_crit arg th
  else if in_tuple opt ["-W"; "--warn-any"]
    then assign_int set_per_cpu_warn arg th
  else if in_tuple opt ["-C"; "--crit-any"]
    then assign_int set_per_cpu_crit arg th
  else if in_tuple opt ["-i"; "--io-warn"] then assign_int set_io_warn arg th
  else if in_tuple opt ["-I"; "--io-crit"] then assign_int set_io_crit arg th
  else if in_string opt "--io-warn-overall"
    then assign_int set_io_warn_overall arg th
  else if in_string opt "--io-crit-overall"
    then assign_int set_io_crit_overall arg th
  else if in_tuple opt ["-s"; "--steal-warn"]
    then assign_int set_steal_warn arg th
  else if in_tuple opt ["-S"; "--steal-crit"]
    then assign_int set_steal_crit arg th
  else if in_tuple opt ["-p"; "--period"]
    then assign_int set_sample_period arg th
  else if in_tuple opt ["-a"; "--abs"] then Continue (set_perfdata_abs 3 th)
  else if in_tuple opt ["-A"; "--abs-only"]
    then Continue (set_perfdata_abs 2 th)
  else if in_tuple opt ["-V"; "--version"] then SysExit Version OK
  else Continue th.

(** [for opt, arg in opts: ...] *)
Fixpoint options_loop (th : Thresholds) (opts : list (string * string))
  : outcome Thresholds :=
  match opts with
  | [] => Continue th
  | oa :: rest =>
      match option_step th oa with
      | Continue th' => options_loop th' rest
      | SysExit printed code => SysExit printed code
      | Uncaught e => Uncaught e
      end
  end.

(** [command_line_validate], given what [getopt.getopt] did with [argv]:
    [None] when it raised [GetoptError], the pair [(opts, args)]
    otherwise. *)
Definition command_line_validate (th : Thresholds)
    (parsed : option (list (string * string) * list string))
  : outcome Thresholds :=
  match parsed with
  | None => SysExit usage CRITICAL
  | Some (opts, args) => options_loop th opts
  end.

(** * Properties *)

(** ** The error monad and the loops *)

Lemma bind_Ok {A B} (m : result A) (f : A → result B) (b : B) :
  m ≫= f = Ok b ↔ ∃ a, m = Ok a ∧ f a = Ok b.
Proof.
  destruct m as [a|e]; simpl.
  - split; [eauto | intros (a' & [= <-] & H); exact H].
  - split; [discriminate | intros (a' & [=] & _)].
Qed.

Lemma bind_raises {A B} (m : result A) (f : A → result B) :
  raises m → raises (m ≫= f).
Proof. intros [e ->]. exists e. reflexivity. Qed.

Lemma raises_not_Ok {A} (m : result A) (a : A) : raises m → m ≠ Ok a.
Proof. intros [e ->]. discriminate. Qed.

Lemma result_cases {A} (m : result A) : succeeds m ∨ raises m.
Proof. destruct m; [left | right]; eexists; reflexivity. Qed.

Lemma for_each_app {S A} (body : S → A → result S) (s : S) (xs ys : list A) :
  for_each body s (xs ++ ys) = for_each body s xs ≫= λ s', for_each body s' ys.
Proof.
  revert s. induction xs as [|x xs IH]; intros s; simpl; [reflexivity|].
  destruct (body s x) as [s'|e]; simpl; [apply IH | reflexivity].
Qed.

(** A step that raises anywhere in the list makes the loop raise. *)
Lemma for_each_raises {S A} (body : S → A → result S) (xs : list A) (x : A) :
  x ∈ xs → (∀ s, raises (body s x)) → ∀ s, raises (for_each body s xs).
Proof.
  intros Hin Hx. induction xs as [|y ys IH]; intros s.
  - inversion Hin.
  - simpl. apply elem_of_cons in Hin as [<- | Hin].
    + apply bind_raises, Hx.
    + destruct (body s y) as [s'|e]; simpl; [|eexists; reflexivity].
      apply IH, Hin.
Qed.

(** An invariant of the body is an invariant of the loop. *)
Lemma for_each_invariant {S A} (P : S → Prop) (body : S → A → result S)
    (xs : list A) :
  (∀ s x s', x ∈ xs → P s → body s x = Ok s' → P s') →
  ∀ s s', P s → for_each body s xs = Ok s' → P s'.
Proof.
  induction xs as [|x xs IH]; intros Hstep s s' Hs; simpl.
  - intros [= <-]. exact Hs.
  - intros (s1 & H1 & H2)%bind_Ok.
    eapply IH; [ | | exact H2].
    + intros. eapply Hstep; eauto. by right.
    + eapply Hstep; eauto. by left.
Qed.

(** Steps that leave the state alone leave the loop's state alone. *)
Lemma for_each_skip {S A} (body : S → A → result S) (xs : list A) (s : S) :
  Forall (λ x, body s x = Ok s) xs → for_each body s xs = Ok s.
Proof.
  induction 1 as [|x xs Hx _ IH]; simpl; [reflexivity|].
  rewrite Hx. simpl. exact IH.
Qed.

(** ** Classification of the lines *)

Inductive line_kind : Type := CpuLine | CtxtLine | ProcessesLine | OtherLine.

(** The [if]/[elif] chain of lines 86-101 as a function of the line. *)
Definition classify (line : string) : line_kind :=
  if startswith line "cpu " then CpuLine
  else if startswith line "cpu" then CpuLine
  else if startswith line "ctxt" then CtxtLine
  else if startswith line "processes" then ProcessesLine
  else OtherLine.

Lemma procstat_line_classify st line :
  procstat_line st line =
    match classify line with
    | CpuLine => record_cpu st (py_split line)
    | CtxtLine => record_scalar st "ctxt"
    | ProcessesLine => record_scalar st "processes"
    | OtherLine => Ok st
    end.
Proof.
  unfold procstat_line, classify.
  repeat (destruct (startswith _ _); [reflexivity|]). reflexivity.
Qed.

Lemma record_scalar_unbound st key :
  parts st = None → record_scalar st key = Raise (UnboundLocalError "parts").
Proof. unfold record_scalar. intros ->. reflexivity. Qed.

(** C10: when the first line that is not ignored begins with ['ctxt'] or
    ['processes'], no cpu line has bound [parts] yet, and reading the
    snapshot raises [UnboundLocalError] for [parts]. *)
Theorem scalar_line_first_raises (g : Globals) (text : string)
    (before after : list string) (line : string) :
  split_lines text = before ++ line :: after →
  Forall (λ l, classify l = OtherLine) before →
  classify line = CtxtLine ∨ classify line = ProcessesLine →
  get_procstat_now g text = Raise (UnboundLocalError "parts").
Proof.
  intros Hsplit Hbefore Hline. unfold get_procstat_now.
  rewrite Hsplit, for_each_app.
  rewrite for_each_skip.
  - simpl. rewrite procstat_line_classify.
    destruct Hline as [-> | ->]; reflexivity.
  - eapply Forall_impl; [exact Hbefore|].
    intros l Hl. rewrite procstat_line_classify, Hl. reflexivity.
Qed.

Lemma scalar_line_first_raises_witness :
  get_procstat_now initial "intr 7
ctxt 5000
cpu 1 2 3 4" = Raise (UnboundLocalError "parts").
Proof.
  apply (scalar_line_first_raises initial _ ["intr 7"] ["cpu 1 2 3 4"]
           "ctxt 5000").
  - reflexivity.
  - repeat constructor.
  - left. reflexivity.
Defined.

(** ** Strings *)

Lemma startswith_spec line pre :
  startswith line pre = true ↔ ∃ rest, line = pre +:+ rest.
Proof.
  unfold startswith. revert line.
  induction pre as [|c pre IH]; intros line.
  - split; [intros _; exists line; reflexivity|].
    intros _. destruct line; reflexivity.
  - destruct line as [|b line]; cbn [String.prefix].
    + split; [discriminate | intros [rest [=]]].
    + destruct (ascii_dec c b) as [<-|Hne].
      * rewrite IH. split; intros [rest H]; exists rest.
        -- rewrite H. reflexivity.
        -- injection H as H. exact H.
      * split; [discriminate | intros [rest H]; injection H as H _; congruence].
Qed.

Lemma startswith_cpu line :
  startswith line "cpu" = true → ∃ rest, line = "cpu" +:+ rest.
Proof. apply startswith_spec. Qed.

Lemma startswith_app pre rest : startswith (pre +:+ rest) pre = true.
Proof. apply startswith_spec. eauto. Qed.

Lemma classify_cpu line :
  classify line = CpuLine ↔ startswith line "cpu" = true.
Proof.
  unfold classify. split.
  - destruct (startswith line "cpu ") eqn:E4.
    + intros _. apply startswith_spec in E4 as [rest ->].
      apply startswith_spec. exists (" " +:+ rest). reflexivity.
    + destruct (startswith line "cpu"); [reflexivity|].
      repeat (destruct (startswith _ _); try discriminate).
  - intros ->. destruct (startswith line "cpu "); reflexivity.
Qed.

Lemma py_split_two c c' s :
  is_space c = false → is_space c' = false →
  py_split (String c (String c' s)) =
    match py_split (String c' s) with
    | w :: ws => String c w :: ws
    | [] => [String c ""]
    end.
Proof. intros Hc Hc'. simpl. rewrite Hc, Hc'. reflexivity. Qed.

Lemma py_split_head c s :
  is_space c = false → ∃ w ws, py_split (String c s) = String c w :: ws.
Proof.
  revert c. induction s as [|c' s IH]; intros c Hc.
  - simpl. rewrite Hc. eauto.
  - destruct (is_space c') eqn:Hc'.
    + simpl. rewrite Hc, Hc'. eauto.
    + rewrite py_split_two by assumption.
      destruct (IH c' Hc') as (w & ws & ->). eauto.
Qed.

(** The first field of a cpu line begins with ['cpu']. *)
Lemma py_split_cpu rest :
  ∃ w ws, py_split ("cpu" +:+ rest) = ("cpu" +:+ w) :: ws.
Proof.
  destruct (py_split_head "u" rest eq_refl) as (w & ws & Hu).
  exists w, ws.
  change ("cpu" +:+ rest) with (String "c" (String "p" (String "u" rest))).
  rewrite py_split_two by reflexivity.
  rewrite py_split_two by reflexivity.
  rewrite Hu. reflexivity.
Qed.

Lemma app_ne_self (s t : string) : t ≠ "" → s +:+ t ≠ s.
Proof.
  intros Ht H. apply Ht.
  apply (String.app_inj s). rewrite H.
  clear. induction s as [|c s IH]; [reflexivity|].
  change (String c s +:+ "") with (String c (s +:+ "")). f_equal. exact IH.
Qed.

Lemma cpu_keys_distinct (s : string) :
  s ≠ s +:+ "all" ∧ s ≠ s +:+ "io_wait" ∧ s ≠ s +:+ "steal"
  ∧ s +:+ "all" ≠ s +:+ "io_wait" ∧ s +:+ "all" ≠ s +:+ "steal"
  ∧ s +:+ "io_wait" ≠ s +:+ "steal".
Proof.
  repeat split;
    first [ intros H; symmetry in H; revert H; apply app_ne_self; discriminate
          | intros H%(String.app_inj s); discriminate ].
Qed.

Lemma cpu_key_not_scalar (w suffix key : string) :
  startswith key "cpu" = false → "cpu" +:+ w +:+ suffix ≠ key.
Proof.
  intros Hkey <-.
  assert (startswith ("cpu" +:+ w +:+ suffix) "cpu" = true) as H
    by apply startswith_app.
  congruence.
Qed.

(** ** [int] on the fields of a line *)

Lemma py_int_Ok s z : py_int s = Ok z → int_literal s = Some z.
Proof.
  unfold py_int. destruct (int_literal s) as [z'|]; [|discriminate].
  destruct (int_max_str_digits <? count_digits s); [discriminate|].
  by intros [= <-].
Qed.

(** [int] raises nothing but [ValueError]. *)
Lemma py_int_raises s e : py_int s = Raise e → e = ValueError.
Proof.
  unfold py_int. destruct (int_literal s); [|congruence].
  destruct (int_max_str_digits <? count_digits s); congruence.
Qed.

Lemma py_int_not_literal s :
  int_literal s = None → py_int s = Raise ValueError.
Proof. unfold py_int. intros ->. reflexivity. Qed.

Lemma int_all_Ok fields zs :
  int_all fields = Ok zs → Forall2 (λ f z, int_literal f = Some z) fields zs.
Proof.
  revert zs. induction fields as [|f fs IH]; intros zs; simpl.
  - intros [= <-]. constructor.
  - destruct (py_int f) as [z|] eqn:Hf; simpl; [|discriminate].
    destruct (int_all fs) as [zs'|] eqn:Hfs; simpl; [|discriminate].
    intros [= <-]. constructor; [by apply py_int_Ok | by apply IH].
Qed.

Lemma int_all_length fields zs :
  int_all fields = Ok zs → length zs = length fields.
Proof. intros H%int_all_Ok. symmetry. eapply Forall2_length, H. Qed.

Lemma int_all_raises fields field :
  field ∈ fields → int_literal field = None →
  int_all fields = Raise ValueError.
Proof.
  induction fields as [|f fs IH]; intros Hin Hbad.
  - inversion Hin.
  - simpl. apply elem_of_cons in Hin as [<- | Hin].
    + rewrite (py_int_not_literal _ Hbad). reflexivity.
    + destruct (py_int f) as [z|e] eqn:E; simpl.
      * rewrite (IH Hin Hbad). reflexivity.
      * by rewrite (py_int_raises _ _ E).
Qed.

(** ** One cpu line *)

Lemma pad_ticks_length zs :
  (length zs ≤ 10)%nat → length (pad_ticks zs) = 10%nat.
Proof. intros H. unfold pad_ticks. rewrite length_app, length_replicate. lia. Qed.

Lemma pad_ticks_long zs : (10 ≤ length zs)%nat → pad_ticks zs = zs.
Proof.
  intros H. unfold pad_ticks.
  replace (10 - length zs)%nat with 0%nat by lia. apply app_nil_r.
Qed.

Lemma sum_pad_ticks zs : sum (pad_ticks zs) = sum zs.
Proof.
  unfold sum, pad_ticks. rewrite fold_left_app.
  generalize (fold_left Z.add zs 0). generalize (10 - length zs)%nat.
  intros n. induction n as [|n IH]; intros a; simpl; [reflexivity|].
  rewrite Z.add_0_r. apply IH.
Qed.

Lemma nth_pad_ticks zs i : nth i (pad_ticks zs) 0 = nth i zs 0.
Proof.
  unfold pad_ticks. destruct (Nat.lt_ge_cases i (length zs)) as [Hlt|Hge].
  - apply app_nth1. exact Hlt.
  - rewrite app_nth2 by exact Hge. rewrite (nth_overflow zs) by exact Hge.
    generalize (i - length zs)%nat. generalize (10 - length zs)%nat.
    intros n. induction n as [|n IH]; intros [|k]; simpl; auto.
Qed.

Lemma ten_elements {A} (l : list A) :
  length l = 10%nat →
  ∃ a b c d e f g h i j, l = [a; b; c; d; e; f; g; h; i; j].
Proof.
  intros H.
  do 10 (destruct l as [|? l]; [discriminate|]).
  destruct l; [|discriminate]. repeat eexists.
Qed.

(** The dictionary after lines 108-111 for [cpu_id] and its ten ticks. *)
Definition stored (d : gmap string pyval) (cpu_id : string) (ticks : list Z)
  : gmap string pyval :=
  <[cpu_id +:+ "steal" := VInt (nth 7 ticks 0)]>
    (<[cpu_id +:+ "io_wait" := VInt (nth 4 ticks 0)]>
       (<[cpu_id +:+ "all" := VInt (sum ticks)]>
          (<[cpu_id := VInt (sum ticks - nth 3 ticks 0)]> d))).

Lemma record_cpu_Ok st cpu_id fields zs :
  int_all fields = Ok zs → (length zs ≤ 10)%nat →
  record_cpu st (cpu_id :: fields) =
    Ok {| cpu_stats := stored (cpu_stats st) cpu_id (pad_ticks zs);
          ids := ids st ++ [cpu_id];
          parts := Some (cpu_id :: fields) |}.
Proof.
  intros Hint Hlen. unfold record_cpu. simpl. rewrite drop_0, Hint. simpl.
  destruct (ten_elements _ (pad_ticks_length zs Hlen))
    as (a & b & c & d & e & f & g & h & i & j & ->).
  reflexivity.
Qed.

Lemma record_cpu_too_long st cpu_id fields zs :
  int_all fields = Ok zs → (10 < length zs)%nat →
  record_cpu st (cpu_id :: fields) = Raise ValueError.
Proof.
  intros Hint Hlen. unfold record_cpu. simpl. rewrite drop_0, Hint. simpl.
  rewrite pad_ticks_long by lia.
  do 11 (destruct zs as [|? zs]; [simpl in Hlen; lia|]). reflexivity.
Qed.

Lemma record_cpu_bad_field st ps field :
  field ∈ drop 1 ps → int_literal field = None →
  record_cpu st ps = Raise ValueError.
Proof.
  intros Hin Hbad. unfold record_cpu.
  destruct ps as [|cpu_id fields]; [inversion Hin|]. simpl in *.
  rewrite drop_0 in *.
  rewrite (int_all_raises _ _ Hin Hbad). reflexivity.
Qed.

(** ** Reading a snapshot *)

Lemma procstat_line_bad_field st line field :
  classify line = CpuLine → field ∈ drop 1 (py_split line) →
  int_literal field = None → procstat_line st line = Raise ValueError.
Proof.
  intros Hc Hin Hbad. rewrite procstat_line_classify, Hc.
  eapply record_cpu_bad_field; eassumption.
Qed.

Lemma get_procstat_now_raises_at g text before line after st e :
  split_lines text = before ++ line :: after →
  for_each procstat_line {| cpu_stats := ∅; ids := []; parts := None |}
    before = Ok st →
  procstat_line st line = Raise e →
  get_procstat_now g text = Raise e.
Proof.
  intros Hsplit Hbefore Hline. unfold get_procstat_now.
  rewrite Hsplit, for_each_app, Hbefore. simpl. rewrite Hline. reflexivity.
Qed.

Lemma get_procstat_now_raising_line g text line :
  line ∈ split_lines text → (∀ st, raises (procstat_line st line)) →
  raises (get_procstat_now g text).
Proof.
  intros Hline Hraises. unfold get_procstat_now.
  apply bind_raises. eapply for_each_raises; [exact Hline | exact Hraises].
Qed.

Lemma get_cpu_stats_raises_t0 th g text_t0 text_t1 :
  raises (get_procstat_now g text_t0) →
  raises (get_cpu_stats th g text_t0 text_t1).
Proof. intros H. unfold get_cpu_stats. apply bind_raises, H. Qed.

Lemma get_procstat_now_globals g g' text :
  is_ok (get_procstat_now g text) = is_ok (get_procstat_now g' text).
Proof.
  unfold get_procstat_now.
  destruct (for_each _ _ _); reflexivity.
Qed.

Lemma get_cpu_stats_raises_t1 th g text_t0 text_t1 :
  raises (get_procstat_now g text_t1) →
  raises (get_cpu_stats th g text_t0 text_t1).
Proof.
  intros [e H]. unfold get_cpu_stats.
  destruct (get_procstat_now g text_t0) as [[g0 t0]|e0] eqn:H0; simpl;
    [|eexists; reflexivity].
  destruct (time_sleep (sample_period th)) as [[]|es]; simpl;
    [|eexists; reflexivity].
  pose proof (get_procstat_now_globals g g0 text_t1) as Hg.
  rewrite H in Hg. simpl in Hg.
  destruct (get_procstat_now g0 text_t1) as [[g1 t1]|e1]; simpl;
    [discriminate | eexists; reflexivity].
Qed.

(** The error of a read does not depend on the globals at its start. *)
Lemma get_procstat_now_error g g' text e :
  get_procstat_now g text = Raise e → get_procstat_now g' text = Raise e.
Proof.
  unfold get_procstat_now.
  destruct (for_each _ _ _); simpl; [discriminate | by intros [= <-]].
Qed.

Lemma get_cpu_stats_error_t0 th g text_t0 text_t1 e :
  get_procstat_now g text_t0 = Raise e →
  get_cpu_stats th g text_t0 text_t1 = Raise e.
Proof. intros H. unfold get_cpu_stats. rewrite H. reflexivity. Qed.

Lemma get_cpu_stats_error_t1 th g text_t0 text_t1 r e :
  get_procstat_now g text_t0 = Ok r →
  time_sleep (sample_period th) = Ok tt →
  get_procstat_now g text_t1 = Raise e →
  get_cpu_stats th g text_t0 text_t1 = Raise e.
Proof.
  intros H0 Hs H1. unfold get_cpu_stats. rewrite H0. destruct r as [g0 t0].
  simpl. rewrite Hs. simpl.
  rewrite (get_procstat_now_error g g0 text_t1 e H1). reflexivity.
Qed.

(** C7, as the code has it: a cpu line with at most ten integer fields is
    recorded as if its missing trailing fields were zero.  A cpu line with
    a field that is not an integer literal raises [ValueError] whenever
    the loop reaches it, whatever the lines before it left behind.
    Nothing catches it: when the lines before it were read without error,
    the read ends with this [ValueError], and so do the sampling and the
    run, be the line in the early text or (after an early read and a
    sleep that returned) in the late text; in any case the read that holds
    the line raises, and the sampling and the run with it. *)
Theorem short_line_padded_bad_field_aborts :
  (∀ st cpu_id fields zs,
     int_all fields = Ok zs → (length zs ≤ 10)%nat →
     record_cpu st (cpu_id :: fields) =
       Ok {| cpu_stats :=
               stored (cpu_stats st) cpu_id
                 (zs ++ replicate (10 - length zs)%nat 0);
             ids := ids st ++ [cpu_id];
             parts := Some (cpu_id :: fields) |})
  ∧ (∀ line field,
       classify line = CpuLine →
       field ∈ drop 1 (py_split line) → int_literal field = None →
       (∀ st, procstat_line st line = Raise ValueError)
       ∧ (∀ repr_float th g text other before after st,
            split_lines text = before ++ line :: after →
            for_each procstat_line
              {| cpu_stats := ∅; ids := []; parts := None |} before = Ok st →
            get_procstat_now g text = Raise ValueError
            ∧ get_cpu_stats th g text other = Raise ValueError
            ∧ main repr_float th text other = Raise ValueError
            ∧ (succeeds (get_procstat_now g other) →
               time_sleep (sample_period th) = Ok tt →
               get_cpu_stats th g other text = Raise ValueError)
            ∧ (succeeds (get_procstat_now initial other) →
               time_sleep (sample_period th) = Ok tt →
               main repr_float th other text = Raise ValueError))
       ∧ (∀ repr_float th g text other,
            line ∈ split_lines text →
            raises (get_procstat_now g text)
            ∧ raises (get_cpu_stats th g text other)
            ∧ raises (get_cpu_stats th g other text)
            ∧ raises (main repr_float th text other)
            ∧ raises (main repr_float th other text))).
Proof.
  split.
  - intros st cpu_id fields zs Hint Hlen. exact (record_cpu_Ok _ _ _ _ Hint Hlen).
  - intros line field Hc Hin Hbad.
    assert (∀ st, procstat_line st line = Raise ValueError) as Hline
      by (intros st; eapply procstat_line_bad_field; eassumption).
    split; [exact Hline|]. split.
    + intros repr_float th g text other before after st Hsplit Hbefore.
      assert (∀ g', get_procstat_now g' text = Raise ValueError) as H
        by (intros g'; eapply get_procstat_now_raises_at; eauto).
      split; [apply H|].
      split; [apply get_cpu_stats_error_t0, H|].
      split; [unfold main; by rewrite (get_cpu_stats_error_t0 _ _ _ _ _ (H _))|].
      split.
      * intros [r Hr] Hs. eapply get_cpu_stats_error_t1; eauto.
      * intros [r Hr] Hs. unfold main.
        by rewrite (get_cpu_stats_error_t1 _ _ _ _ _ _ Hr Hs (H _)).
    + intros repr_float th g text other Hin'.
      assert (∀ g', raises (get_procstat_now g' text)) as H.
      { intros g'. apply get_procstat_now_raising_line with line; [exact Hin'|].
        intros st. exists ValueError. apply Hline. }
      split; [apply H|].
      split; [apply get_cpu_stats_raises_t0, H|].
      split; [apply get_cpu_stats_raises_t1, H|].
      split; unfold main; apply bind_raises;
        [apply get_cpu_stats_raises_t0 | apply get_cpu_stats_raises_t1];
        apply H.
Qed.

Definition text_short : string := "cpu 7 1 2 90
ctxt 5
processes 6".

Definition text_bad_field : string := "cpu 7 1 x 90
ctxt 5
processes 6".

Lemma short_line_padded_bad_field_aborts_witness :
  record_cpu {| cpu_stats := ∅; ids := []; parts := None |}
    ["cpu"; "7"; "1"; "2"; "90"]
  = Ok {| cpu_stats := stored ∅ "cpu" [7; 1; 2; 90; 0; 0; 0; 0; 0; 0];
          ids := ["cpu"];
          parts := Some ["cpu"; "7"; "1"; "2"; "90"] |}
  ∧ procstat_line
      {| cpu_stats := stored ∅ "cpu" [7; 1; 2; 90; 0; 0; 0; 0; 0; 0];
         ids := ["cpu"];
         parts := Some ["cpu"; "7"; "1"; "2"; "90"] |}
      "cpu 7 1 x 90" = Raise ValueError
  ∧ get_cpu_stats defaults initial text_short text_bad_field
    = Raise ValueError
  ∧ raises (main (λ _, "0.0") defaults text_bad_field text_short).
Proof.
  pose proof (proj2 short_line_padded_bad_field_aborts "cpu 7 1 x 90" "x")
    as (Hline & Hfirst & Hany).
  { vm_compute. reflexivity. }
  { vm_compute. do 2 right. left. }
  { vm_compute. reflexivity. }
  split; [|split; [exact (Hline _)|split]].
  - apply (proj1 short_line_padded_bad_field_aborts
             {| cpu_stats := ∅; ids := []; parts := None |}
             "cpu" ["7"; "1"; "2"; "90"] [7; 1; 2; 90]).
    + vm_compute. reflexivity.
    + vm_compute. lia.
  - destruct (Hfirst (λ _, "0.0") defaults initial text_bad_field text_short
                [] ["ctxt 5"; "processes 6"]
                {| cpu_stats := ∅; ids := []; parts := None |})
      as (_ & _ & _ & Hlate & _).
    + vm_compute. reflexivity.
    + reflexivity.
    + apply Hlate; [|reflexivity].
      exists (snapshot initial text_short). vm_compute. reflexivity.
  - apply (Hany (λ _, "0.0") defaults initial text_bad_field text_short).
    vm_compute. left.
Defined.

(** C7 as the specification words it fails: one cpu line with a
    non-numeric field, and the run produces no result at all. *)
Lemma bad_field_aborts_run :
  get_cpu_stats defaults initial text_bad_field text_short = Raise ValueError
  ∧ get_cpu_stats defaults initial text_short text_bad_field
    = Raise ValueError.
Proof. split; vm_compute; reflexivity. Qed.

(** ** What a snapshot holds *)

(** The four entries of [cpu_id] are present and hold integers. *)
Definition has_cpu (d : gmap string pyval) (cpu_id : string) : Prop :=
  ∃ busy total io st,
    d !! cpu_id = Some (VInt busy)
    ∧ d !! (cpu_id +:+ "all") = Some (VInt total)
    ∧ d !! (cpu_id +:+ "io_wait") = Some (VInt io)
    ∧ d !! (cpu_id +:+ "steal") = Some (VInt st).

Definition literal (s : string) : Prop := is_Some (int_literal s).

(** What holds of the loop variables of [get_procstat_now] at every
    iteration. *)
Record parse_inv (st : Locals) : Prop := {
  inv_ids : ∀ id, id ∈ ids st → startswith id "cpu" = true;
  inv_cpu : ∀ id, id ∈ ids st → has_cpu (cpu_stats st) id;
  inv_parts : ∀ ps, parts st = Some ps → Forall literal (drop 1 ps);
  inv_str : ∀ k s, cpu_stats st !! k = Some (VStr s) →
                   literal s ∧ startswith k "cpu" = false
}.

Lemma record_cpu_inv st ps st' :
  record_cpu st ps = Ok st' →
  ∃ cpu_id fields zs,
    ps = cpu_id :: fields ∧ int_all fields = Ok zs ∧ (length zs ≤ 10)%nat
    ∧ st' = {| cpu_stats := stored (cpu_stats st) cpu_id (pad_ticks zs);
               ids := ids st ++ [cpu_id];
               parts := Some (cpu_id :: fields) |}.
Proof.
  intros H. destruct ps as [|cpu_id fields]; [discriminate|].
  destruct (int_all fields) as [zs|e] eqn:Hint.
  - destruct (Nat.le_gt_cases (length zs) 10) as [Hle|Hgt].
    + rewrite (record_cpu_Ok _ _ _ _ Hint Hle) in H. injection H as <-.
      exists cpu_id, fields, zs. auto.
    + rewrite (record_cpu_too_long _ _ _ _ Hint Hgt) in H. discriminate.
  - unfold record_cpu in H. simpl in H. rewrite drop_0, Hint in H.
    discriminate.
Qed.

Lemma has_cpu_insert_int d id k z :
  has_cpu d id → has_cpu (<[k := VInt z]> d) id.
Proof.
  intros (a & b & c & e & Ha & Hb & Hc & He). unfold has_cpu.
  rewrite !lookup_insert. repeat case_decide; eauto 10.
Qed.

Lemma has_cpu_stored_other d id cpu_id ticks :
  has_cpu d id → has_cpu (stored d cpu_id ticks) id.
Proof. intros H. unfold stored. by do 4 apply has_cpu_insert_int. Qed.

Lemma stored_lookup d cpu_id ticks :
  stored d cpu_id ticks !! cpu_id = Some (VInt (sum ticks - nth 3 ticks 0))
  ∧ stored d cpu_id ticks !! (cpu_id +:+ "all") = Some (VInt (sum ticks))
  ∧ stored d cpu_id ticks !! (cpu_id +:+ "io_wait")
    = Some (VInt (nth 4 ticks 0))
  ∧ stored d cpu_id ticks !! (cpu_id +:+ "steal")
    = Some (VInt (nth 7 ticks 0)).
Proof.
  destruct (cpu_keys_distinct cpu_id) as (H1 & H2 & H3 & H4 & H5 & H6).
  unfold stored. repeat split.
  - rewrite !lookup_insert_ne by congruence. apply lookup_insert_eq.
  - rewrite !lookup_insert_ne by congruence. apply lookup_insert_eq.
  - rewrite !lookup_insert_ne by congruence. apply lookup_insert_eq.
  - apply lookup_insert_eq.
Qed.

Lemma has_cpu_stored d cpu_id ticks : has_cpu (stored d cpu_id ticks) cpu_id.
Proof.
  destruct (stored_lookup d cpu_id ticks) as (H1 & H2 & H3 & H4).
  unfold has_cpu. eauto 10.
Qed.

Lemma stored_lookup_str d cpu_id ticks k s :
  stored d cpu_id ticks !! k = Some (VStr s) → d !! k = Some (VStr s).
Proof.
  unfold stored. rewrite !lookup_insert.
  repeat case_decide; congruence.
Qed.

Lemma startswith_cpu_suffix id suffix :
  startswith id "cpu" = true → startswith (id +:+ suffix) "cpu" = true.
Proof.
  intros [rest ->]%startswith_spec. apply startswith_spec.
  exists (rest +:+ suffix). reflexivity.
Qed.

Lemma has_cpu_insert_scalar d id key v :
  startswith id "cpu" = true → startswith key "cpu" = false →
  has_cpu d id → has_cpu (<[key := v]> d) id.
Proof.
  intros Hid Hkey (a & b & c & e & Ha & Hb & Hc & He). unfold has_cpu.
  exists a, b, c, e.
  rewrite !lookup_insert_ne; [auto | | | |]; intros ->;
    first [ rewrite Hid in Hkey
          | rewrite (startswith_cpu_suffix _ _ Hid) in Hkey ];
    discriminate.
Qed.

Lemma int_all_literal fields zs :
  int_all fields = Ok zs → Forall literal fields.
Proof.
  intros H%int_all_Ok. induction H; constructor; [eexists|]; eauto.
Qed.

Lemma record_scalar_inv st key st' :
  parse_inv st → startswith key "cpu" = false →
  record_scalar st key = Ok st' → parse_inv st'.
Proof.
  intros Hinv Hkey H. unfold record_scalar in H.
  destruct (parts st) as [ps|] eqn:Hps; [|discriminate].
  unfold list_getitem in H. destruct (ps !! 1%nat) as [v|] eqn:Hv;
    [|discriminate].
  injection H as <-.
  assert (literal v) as Hlit.
  { pose proof (inv_parts _ Hinv _ Hps) as Hall.
    rewrite Forall_forall in Hall. apply Hall.
    apply list_elem_of_lookup. exists 0%nat.
    rewrite lookup_drop. exact Hv. }
  split; simpl.
  - apply Hinv.
  - intros id Hin. apply has_cpu_insert_scalar; [by apply Hinv | done |].
    by apply Hinv.
  - intros ps' [= <-]. by apply Hinv.
  - intros k s. rewrite lookup_insert. case_decide.
    + subst k. intros [= <-]. auto.
    + by apply Hinv.
Qed.

Lemma procstat_line_inv st line st' :
  parse_inv st → procstat_line st line = Ok st' → parse_inv st'.
Proof.
  intros Hinv H. rewrite procstat_line_classify in H.
  destruct (classify line) eqn:Hc.
  - apply classify_cpu, startswith_cpu in Hc as [rest ->].
    destruct (py_split_cpu rest) as (w & ws & Hsplit).
    apply record_cpu_inv in H
      as (cpu_id & fields & zs & Hps & Hint & Hlen & ->).
    rewrite Hsplit in Hps. injection Hps as <- <-.
    split; simpl.
    + intros id [Hin | ->%list_elem_of_singleton]%elem_of_app.
      * by apply Hinv.
      * apply startswith_app.
    + intros id [Hin | ->%list_elem_of_singleton]%elem_of_app.
      * apply has_cpu_stored_other. by apply Hinv.
      * apply has_cpu_stored.
    + intros ps [= <-]. simpl. rewrite drop_0.
      eapply int_all_literal, Hint.
    + intros k s Hk%stored_lookup_str. by apply Hinv.
  - exact (record_scalar_inv st "ctxt" st' Hinv eq_refl H).
  - exact (record_scalar_inv st "processes" st' Hinv eq_refl H).
  - injection H as <-. exact Hinv.
Qed.

Lemma get_procstat_now_Ok g text g' d :
  get_procstat_now g text = Ok (g', d) →
  ∃ st, for_each procstat_line {| cpu_stats := ∅; ids := []; parts := None |}
          (split_lines text) = Ok st
        ∧ parse_inv st ∧ g' = set_cpu_id_list (ids st) g ∧ d = cpu_stats st.
Proof.
  unfold get_procstat_now. intros (st & Hloop & [= <- <-])%bind_Ok.
  exists st. split; [exact Hloop|]. split; [|auto].
  eapply for_each_invariant; [| |exact Hloop].
  - intros s x s' _. apply procstat_line_inv.
  - split; simpl; try (intros ? []%elem_of_nil); discriminate.
Qed.

(** Every id of a snapshot has its four integer entries, and the strings
    stored for the scalars are integer literals, so [float] accepts
    them. *)
Lemma snapshot_has_ids g text g' d :
  get_procstat_now g text = Ok (g', d) →
  ∀ id, id ∈ cpu_id_list g' → has_cpu d id.
Proof.
  intros (st & _ & Hinv & -> & ->)%get_procstat_now_Ok id Hin.
  by apply Hinv.
Qed.


(** ** The keys of a snapshot *)










(** ** The rate loop *)

(** The four entries of [cpu_id] and their values. *)
Definition cpu_entries (d : gmap string pyval) (cpu_id : string)
    (busy total io st : Z) : Prop :=
  d !! cpu_id = Some (VInt busy)
  ∧ d !! (cpu_id +:+ "all") = Some (VInt total)
  ∧ d !! (cpu_id +:+ "io_wait") = Some (VInt io)
  ∧ d !! (cpu_id +:+ "steal") = Some (VInt st).

(** The entries that lines 106-111 derive from ten ticks. *)
Definition ticks_entries (d : gmap string pyval) (cpu_id : string)
    (ticks : list Z) : Prop :=
  length ticks = 10%nat
  ∧ cpu_entries d cpu_id (sum ticks - nth 3 ticks 0) (sum ticks)
      (nth 4 ticks 0) (nth 7 ticks 0).

(** What lines 124-131 assign for a numerator delta [n]. *)
Definition rate_value (n delta_total : Z) : pynum :=
  if 0 <? delta_total then percent_of n delta_total else PyInt 0.


Lemma has_cpu_entries d id :
  has_cpu d id ↔ ∃ b t w s, cpu_entries d id b t w s.
Proof. reflexivity. Qed.

Lemma getitem_Some {V} (d : gmap string V) k v :
  d !! k = Some v → getitem d k = Ok v.
Proof. unfold getitem. intros ->. reflexivity. Qed.

Lemma getitem_None {V} (d : gmap string V) k :
  d !! k = None → getitem d k = Raise (KeyError k).
Proof. unfold getitem. intros ->. reflexivity. Qed.

(** The division of a numerator delta by a positive total returns the
    quotient or raises [OverflowError]. *)
Lemma true_div_Ok_inv n d p :
  true_div (n * 100) d = Ok p → p = percent_of n d.
Proof.
  unfold true_div, percent_of. destruct (d =? 0); [discriminate|].
  destruct (_ <=? _); [discriminate|]. by intros [= <-].
Qed.


Lemma rate_step_entries_inv t0 t1 g id b0 tot0 w0 s0 b1 tot1 w1 s1 g' :
  cpu_entries t0 id b0 tot0 w0 s0 → cpu_entries t1 id b1 tot1 w1 s1 →
  rate_step t0 t1 g id = Ok g' →
  g' = set_steal_percent id (rate_value (s1 - s0) (tot1 - tot0))
         (set_io_wait_percent id (rate_value (w1 - w0) (tot1 - tot0))
            (set_cpu_percent id (rate_value (b1 - b0) (tot1 - tot0)) g)).
Proof.
  intros (Hb0 & Ht0 & Hw0 & Hs0) (Hb1 & Ht1 & Hw1 & Hs1).
  unfold rate_step, rate_value.
  rewrite (getitem_Some _ _ _ Ht1), (getitem_Some _ _ _ Ht0). simpl.
  destruct (0 <? tot1 - tot0); [|by intros [= <-]].
  rewrite (getitem_Some _ _ _ Hb1), (getitem_Some _ _ _ Hb0). simpl.
  destruct (true_div ((b1 - b0) * 100) _) as [p|] eqn:Ep; [|discriminate].
  apply true_div_Ok_inv in Ep as ->. simpl.
  rewrite (getitem_Some _ _ _ Hw1), (getitem_Some _ _ _ Hw0). simpl.
  destruct (true_div ((w1 - w0) * 100) _) as [p|] eqn:Ep; [|discriminate].
  apply true_div_Ok_inv in Ep as ->. simpl.
  rewrite (getitem_Some _ _ _ Hs1), (getitem_Some _ _ _ Hs0). simpl.
  destruct (true_div ((s1 - s0) * 100) _) as [p|] eqn:Ep; [|discriminate].
  apply true_div_Ok_inv in Ep as ->. simpl.
  by intros [= <-].
Qed.


(** A successful step assigns the three percentages of its id and
    nothing else. *)
Lemma rate_step_Ok_inv t0 t1 g id g' :
  rate_step t0 t1 g id = Ok g' →
  ∃ p w s, g' = set_steal_percent id s
                  (set_io_wait_percent id w (set_cpu_percent id p g)).
Proof.
  unfold rate_step.
  intros (tot1 & _ & (tot0 & _ & (dt & _ & H)%bind_Ok)%bind_Ok)%bind_Ok.
  destruct (0 <? dt).
  - apply bind_Ok in H as (? & _ & (? & _ & (? & _ & H)%bind_Ok)%bind_Ok).
    apply bind_Ok in H as (p & _ & H).
    apply bind_Ok in H as (? & _ & (? & _ & (? & _ & H)%bind_Ok)%bind_Ok).
    apply bind_Ok in H as (w & _ & H).
    apply bind_Ok in H as (? & _ & (? & _ & (? & _ & H)%bind_Ok)%bind_Ok).
    apply bind_Ok in H as (s & _ & H).
    injection H as <-. eauto.
  - injection H as <-. eauto.
Qed.



(** A computation that returns or raises [KeyError]. *)
Definition key_error_only {A} (m : result A) : Prop :=
  succeeds m ∨ ∃ k, m = Raise (KeyError k).

Lemma key_error_only_bind {A B} (m : result A) (f : A → result B) :
  key_error_only m → (∀ a, m = Ok a → key_error_only (f a)) →
  key_error_only (m ≫= f).
Proof.
  intros [[a ->] | [k ->]] Hf; simpl; [by apply Hf | right; eauto].
Qed.





(** A loop that returned leaves for each id with entries in both
    snapshots the three values of [rate_value]. *)
Lemma rate_loop_values t0 t1 ids g g' id b0 tot0 w0 s0 b1 tot1 w1 s1 :
  for_each (rate_step t0 t1) g ids = Ok g' → id ∈ ids →
  cpu_entries t0 id b0 tot0 w0 s0 → cpu_entries t1 id b1 tot1 w1 s1 →
  cpu_percent g' !! id = Some (rate_value (b1 - b0) (tot1 - tot0))
  ∧ io_wait_percent g' !! id = Some (rate_value (w1 - w0) (tot1 - tot0))
  ∧ steal_percent g' !! id = Some (rate_value (s1 - s0) (tot1 - tot0)).
Proof.
  intros Hloop Hin E0 E1. revert g g' Hloop.
  induction ids as [|x xs IH] using rev_ind; intros g g' Hloop.
  - inversion Hin.
  - rewrite for_each_app in Hloop.
    apply bind_Ok in Hloop as (g1 & Hxs & Hx). simpl in Hx.
    apply bind_Ok in Hx as (g2 & Hx & [= <-]).
    destruct (decide (x = id)) as [->|Hne].
    + apply (rate_step_entries_inv _ _ _ _ _ _ _ _ _ _ _ _ _ E0 E1) in Hx
        as ->.
      simpl. rewrite !lookup_insert_eq. auto.
    + apply rate_step_Ok_inv in Hx as (p & w & s & ->). simpl.
      rewrite !lookup_insert_ne by exact Hne.
      apply elem_of_app in Hin as [Hin | Hin%list_elem_of_singleton];
        [|congruence].
      exact (IH Hin g g1 Hxs).
Qed.

Lemma rate_loop_other t0 t1 ids g g' :
  for_each (rate_step t0 t1) g ids = Ok g' →
  cpu_id_list g' = cpu_id_list g ∧ cpu_stats_t1 g' = cpu_stats_t1 g
  ∧ ctxt_per_second g' = ctxt_per_second g
  ∧ processes_per_second g' = processes_per_second g.
Proof.
  revert g. induction ids as [|x xs IH]; intros g; simpl.
  - intros [= <-]. auto.
  - intros (g1 & Hx & Hxs)%bind_Ok.
    apply rate_step_Ok_inv in Hx as (p & w & s & ->).
    apply IH in Hxs. exact Hxs.
Qed.

(** ** [get_cpu_stats] over two snapshots *)


Lemma snapshot_ids_cpu g text g' d id :
  get_procstat_now g text = Ok (g', d) → id ∈ cpu_id_list g' →
  startswith id "cpu" = true.
Proof.
  intros (st & _ & Hinv & -> & ->)%get_procstat_now_Ok Hin.
  by apply Hinv.
Qed.



Lemma get_cpu_stats_unfold th g text_t0 text_t1 g0 t0 g1 t1 :
  get_procstat_now g text_t0 = Ok (g0, t0) →
  time_sleep (sample_period th) = Ok tt →
  get_procstat_now g0 text_t1 = Ok (g1, t1) →
  get_cpu_stats th g text_t0 text_t1 =
    (gl ← for_each (rate_step t0 t1) (set_cpu_stats_t1 t1 g1)
           (cpu_id_list g1);
     c ← per_second t0 t1 "ctxt" (sample_period th);
     p ← per_second t0 t1 "processes" (sample_period th);
     Ok (set_per_second c p gl)).
Proof.
  intros H0 Hs H1. unfold get_cpu_stats. rewrite H0. simpl.
  rewrite Hs. simpl. rewrite H1. reflexivity.
Qed.

(** A sampling that returned has slept. *)
Lemma get_cpu_stats_slept th g text_t0 text_t1 g' :
  get_cpu_stats th g text_t0 text_t1 = Ok g' →
  time_sleep (sample_period th) = Ok tt.
Proof.
  unfold get_cpu_stats.
  intros ([g0 t0] & _ & ([] & Hs & _)%bind_Ok)%bind_Ok. exact Hs.
Qed.

Lemma get_cpu_stats_Ok th g text_t0 text_t1 g' :
  get_cpu_stats th g text_t0 text_t1 = Ok g' →
  ∃ g0 t0 g1 t1 gl c p,
    get_procstat_now g text_t0 = Ok (g0, t0)
    ∧ get_procstat_now g0 text_t1 = Ok (g1, t1)
    ∧ for_each (rate_step t0 t1) (set_cpu_stats_t1 t1 g1) (cpu_id_list g1)
      = Ok gl
    ∧ per_second t0 t1 "ctxt" (sample_period th) = Ok c
    ∧ per_second t0 t1 "processes" (sample_period th) = Ok p
    ∧ g' = set_per_second c p gl.
Proof.
  unfold get_cpu_stats.
  intros ([g0 t0] & H0 & (u & _ & ([g1 t1] & H1 & H)%bind_Ok)%bind_Ok)%bind_Ok.
  apply bind_Ok in H as (gl & Hl & (c & Hc & (p & Hp & [= <-])%bind_Ok)%bind_Ok).
  exists g0, t0, g1, t1, gl, c, p. auto 10.
Qed.



Definition text_one_cpu : string := "cpu 100 0 0 900 0 0 0 0 0 0
ctxt 5000
processes 40".






(** The side condition on [id + 'all'] cannot be dropped: here the late
    id [cpu0] is no id of the early snapshot, whose only id is [cpu0all];
    the loop takes the busy ticks of [cpu0all] for the early total of
    [cpu0], finds no growth and reports zeros. *)
Definition text_total_as_id : string := "cpu0all 9 0 0 0 0 0 0 0 0 0
ctxt 1
processes 1".

Definition text_plain_core : string := "cpu0 1 0 0 0 0 0 0 0 0 0
ctxt 1
processes 1".

Lemma unlisted_id_may_pass :
  ∃ g', get_cpu_stats defaults initial text_total_as_id text_plain_core
        = Ok g'
        ∧ cpu_id_list g' = ["cpu0"]
        ∧ cpu_percent g' !! "cpu0" = Some (PyInt 0).
Proof. eexists. repeat split; vm_compute; reflexivity. Qed.

(** No id of the kernel's table, [cpu] or [cpu] and a decimal index, is
    the total key of another id. *)
Fixpoint all_digits (s : string) : bool :=
  match s with
  | "" => true
  | String c s' =>
      match digit_of c with
      | Some _ => all_digits s'
      | None => false
      end
  end.

Definition indexed_id (id : string) : Prop :=
  ∃ n, id = "cpu" +:+ n ∧ all_digits n = true.

Fixpoint last_char (s : string) (before : option ascii) : option ascii :=
  match s with
  | "" => before
  | String c s' => last_char s' (Some c)
  end.

Lemma last_char_app a b before :
  last_char (a +:+ b) before = last_char b (last_char a before).
Proof.
  revert before. induction a as [|c a IH]; intros before; [reflexivity|].
  change (String c a +:+ b) with (String c (a +:+ b)). simpl. apply IH.
Qed.

Lemma all_digits_last n before :
  all_digits n = true →
  last_char n before = before
  ∨ ∃ c, last_char n before = Some c ∧ is_Some (digit_of c).
Proof.
  revert before. induction n as [|c n IH]; intros before Hn; [by left|].
  simpl in Hn. destruct (digit_of c) as [d|] eqn:Hc; [|discriminate].
  simpl. destruct (IH (Some c) Hn) as [-> | H]; [|by right].
  right. exists c. split; [reflexivity|]. by rewrite Hc.
Qed.

Lemma indexed_ids_no_total ids cpu_id :
  Forall indexed_id ids → (cpu_id +:+ "all") ∉ ids.
Proof.
  intros Hids Hin. rewrite Forall_forall in Hids.
  destruct (Hids _ Hin) as (n & H & Hn).
  apply (f_equal (λ s, last_char s None)) in H.
  rewrite !last_char_app in H. simpl in H.
  destruct (all_digits_last n (Some "u"%char) Hn) as [E | (c & E & Hc)];
    rewrite E in H; [discriminate|].
  injection H as <-. destruct Hc as [d Hd]. vm_compute in Hd. discriminate.
Qed.

(** ** The percentages as rationals *)

Lemma percent_of_value n delta_total :
  0 < delta_total →
  (num_value (percent_of n delta_total) == (n * 100) # Z.to_pos delta_total)%Q.
Proof.
  intros H. destruct delta_total as [|p|p]; try lia.
  unfold percent_of, num_value, Qdiv, Qinv, Qmult, Qeq, inject_Z. simpl.
  lia.
Qed.

Lemma percent_of_negative n delta_total :
  0 < delta_total →
  (num_value (percent_of n delta_total) < 0)%Q ↔ n < 0.
Proof.
  intros H. rewrite (percent_of_value n delta_total H).
  unfold Qlt. simpl. lia.
Qed.

Lemma percent_of_bounds n delta_total :
  0 < delta_total → 0 ≤ n ≤ delta_total →
  (0 <= num_value (percent_of n delta_total)
   ∧ num_value (percent_of n delta_total) <= 100)%Q.
Proof.
  intros H Hn. rewrite (percent_of_value n delta_total H).
  unfold Qle. simpl. rewrite Z2Pos.id by exact H. lia.
Qed.

Lemma get_cpu_stats_percentages th g text_t0 text_t1 g0 t0 g1 t1 g' :
  get_procstat_now g text_t0 = Ok (g0, t0) →
  get_procstat_now g0 text_t1 = Ok (g1, t1) →
  get_cpu_stats th g text_t0 text_t1 = Ok g' →
  ∃ gl, for_each (rate_step t0 t1) (set_cpu_stats_t1 t1 g1) (cpu_id_list g1)
        = Ok gl
        ∧ cpu_percent g' = cpu_percent gl
        ∧ io_wait_percent g' = io_wait_percent gl
        ∧ steal_percent g' = steal_percent gl
        ∧ cpu_id_list g' = cpu_id_list g1.
Proof.
  intros H0 H1 H.
  rewrite (get_cpu_stats_unfold _ _ _ _ _ _ _ _ H0
             (get_cpu_stats_slept _ _ _ _ _ H) H1) in H.
  apply bind_Ok in H as (gl & Hl & (c & Hc & (p & Hp & [= <-])%bind_Ok)%bind_Ok).
  exists gl. repeat split; try reflexivity; [exact Hl|].
  simpl. apply rate_loop_other in Hl as (-> & _). reflexivity.
Qed.

Lemma get_cpu_stats_values th g text_t0 text_t1 g0 t0 g1 t1 g' id
    b0 tot0 w0 s0 b1 tot1 w1 s1 :
  get_procstat_now g text_t0 = Ok (g0, t0) →
  get_procstat_now g0 text_t1 = Ok (g1, t1) →
  get_cpu_stats th g text_t0 text_t1 = Ok g' →
  id ∈ cpu_id_list g1 →
  cpu_entries t0 id b0 tot0 w0 s0 → cpu_entries t1 id b1 tot1 w1 s1 →
  cpu_percent g' !! id = Some (rate_value (b1 - b0) (tot1 - tot0))
  ∧ io_wait_percent g' !! id = Some (rate_value (w1 - w0) (tot1 - tot0))
  ∧ steal_percent g' !! id = Some (rate_value (s1 - s0) (tot1 - tot0)).
Proof.
  intros H0 H1 H Hid E0 E1.
  destruct (get_cpu_stats_percentages _ _ _ _ _ _ _ _ _ H0 H1 H)
    as (gl & Hl & -> & -> & -> & _).
  eapply rate_loop_values; eassumption.
Qed.

(** C6, as the code has it: for an id with entries in both snapshots,
    the three percentages are exactly the integer 0 when the total did
    not grow; when it grew they are the unclamped quotients
    [delta * 100 / delta_total], each negative exactly when its own
    counter decreased. *)
Theorem percentages_zero_or_unclamped (th : Thresholds) (g : Globals)
    (text_t0 text_t1 : string) (g0 g1 g' : Globals)
    (t0 t1 : gmap string pyval) (id : string)
    (b0 tot0 w0 s0 b1 tot1 w1 s1 : Z) :
  get_procstat_now g text_t0 = Ok (g0, t0) →
  get_procstat_now g0 text_t1 = Ok (g1, t1) →
  get_cpu_stats th g text_t0 text_t1 = Ok g' →
  id ∈ cpu_id_list g1 →
  cpu_entries t0 id b0 tot0 w0 s0 → cpu_entries t1 id b1 tot1 w1 s1 →
  (tot1 - tot0 ≤ 0 →
   cpu_percent g' !! id = Some (PyInt 0)
   ∧ io_wait_percent g' !! id = Some (PyInt 0)
   ∧ steal_percent g' !! id = Some (PyInt 0))
  ∧ (0 < tot1 - tot0 →
     ∃ busy io steal,
       cpu_percent g' !! id = Some (PyFloat busy)
       ∧ io_wait_percent g' !! id = Some (PyFloat io)
       ∧ steal_percent g' !! id = Some (PyFloat steal)
       ∧ (busy == inject_Z ((b1 - b0) * 100) / inject_Z (tot1 - tot0))%Q
       ∧ (io == inject_Z ((w1 - w0) * 100) / inject_Z (tot1 - tot0))%Q
       ∧ (steal == inject_Z ((s1 - s0) * 100) / inject_Z (tot1 - tot0))%Q
       ∧ ((busy < 0)%Q ↔ b1 < b0)
       ∧ ((io < 0)%Q ↔ w1 < w0)
       ∧ ((steal < 0)%Q ↔ s1 < s0)).
Proof.
  intros H0 H1 H Hid E0 E1.
  destruct (get_cpu_stats_values _ _ _ _ _ _ _ _ _ _ _ _ _ _ _ _ _ _
              H0 H1 H Hid E0 E1) as (Hb & Hw & Hs).
  unfold rate_value in *. split; intros Hd.
  - destruct (Z.ltb_spec 0 (tot1 - tot0)); [lia|]. auto.
  - destruct (Z.ltb_spec 0 (tot1 - tot0)); [|lia].
    eexists _, _, _. repeat split; try eassumption; try reflexivity.
    + intros Hneg. apply (percent_of_negative (b1 - b0) _ Hd) in Hneg. lia.
    + intros Hneg. apply (percent_of_negative (b1 - b0) _ Hd). lia.
    + intros Hneg. apply (percent_of_negative (w1 - w0) _ Hd) in Hneg. lia.
    + intros Hneg. apply (percent_of_negative (w1 - w0) _ Hd). lia.
    + intros Hneg. apply (percent_of_negative (s1 - s0) _ Hd) in Hneg. lia.
    + intros Hneg. apply (percent_of_negative (s1 - s0) _ Hd). lia.
Qed.

Definition text_steal_before : string := "cpu 0 0 0 0 0 0 0 10 0 0
ctxt 1
processes 1".

Definition text_steal_after : string := "cpu 100 0 0 0 0 0 0 5 0 0
ctxt 2
processes 2".

(** C6 as the specification words it fails: the steal counter went down
    from 10 to 5 while the total went up by 95, and the steal percentage
    reported is [-500/95]. *)
Lemma decreased_counter_not_clamped :
  ∃ g' steal,
    get_cpu_stats defaults initial text_steal_before text_steal_after = Ok g'
    ∧ steal_percent g' !! "cpu" = Some (PyFloat steal)
    ∧ (steal == -500 # 95)%Q ∧ (steal < 0)%Q.
Proof.
  eexists _, _. split; [vm_compute; reflexivity|].
  split; [vm_compute; reflexivity|]. split; reflexivity.
Qed.

Lemma percentages_zero_or_unclamped_witness :
  let g' := sampled defaults initial text_steal_before text_steal_after in
  (105 - 10 ≤ 0 →
   cpu_percent g' !! "cpu" = Some (PyInt 0)
   ∧ io_wait_percent g' !! "cpu" = Some (PyInt 0)
   ∧ steal_percent g' !! "cpu" = Some (PyInt 0))
  ∧ (0 < 105 - 10 →
     ∃ busy io steal,
       cpu_percent g' !! "cpu" = Some (PyFloat busy)
       ∧ io_wait_percent g' !! "cpu" = Some (PyFloat io)
       ∧ steal_percent g' !! "cpu" = Some (PyFloat steal)
       ∧ (busy == inject_Z ((105 - 10) * 100) / inject_Z (105 - 10))%Q
       ∧ (io == inject_Z ((0 - 0) * 100) / inject_Z (105 - 10))%Q
       ∧ (steal == inject_Z ((5 - 10) * 100) / inject_Z (105 - 10))%Q
       ∧ ((busy < 0)%Q ↔ 105 < 10)
       ∧ ((io < 0)%Q ↔ 0 < 0)
       ∧ ((steal < 0)%Q ↔ 5 < 10)).
Proof.
  intros g'.
  apply (percentages_zero_or_unclamped defaults initial
           text_steal_before text_steal_after
           (snapshot initial text_steal_before).1
           (snapshot (snapshot initial text_steal_before).1
              text_steal_after).1
           g'
           (snapshot initial text_steal_before).2
           (snapshot (snapshot initial text_steal_before).1
              text_steal_after).2
           "cpu" 10 10 0 10 105 105 0 5).
  - vm_compute. reflexivity.
  - vm_compute. reflexivity.
  - vm_compute. reflexivity.
  - vm_compute. left.
  - split; [|split; [|split]]; vm_compute; reflexivity.
  - split; [|split; [|split]]; vm_compute; reflexivity.
Defined.

(** ** Bounds for counters that only grow *)

Lemma record_cpu_ticks_entries st cpu_id fields zs st' :
  int_all fields = Ok zs → record_cpu st (cpu_id :: fields) = Ok st' →
  ticks_entries (cpu_stats st') cpu_id (pad_ticks zs).
Proof.
  intros Hint H.
  apply record_cpu_inv in H as (id & fs & zs' & [= <- <-] & Hint' & Hlen & ->).
  rewrite Hint in Hint'. injection Hint' as <-. simpl.
  split; [by apply pad_ticks_length | apply stored_lookup].
Qed.

Lemma growing_ticks_deltas early late :
  length early = 10%nat → length late = 10%nat → Forall2 Z.le early late →
  0 ≤ (sum late - nth 3 late 0) - (sum early - nth 3 early 0)
      ≤ sum late - sum early
  ∧ 0 ≤ nth 4 late 0 - nth 4 early 0 ≤ sum late - sum early
  ∧ 0 ≤ nth 7 late 0 - nth 7 early 0 ≤ sum late - sum early.
Proof.
  intros He Hl Hle.
  destruct (ten_elements _ He) as (a0 & a1 & a2 & a3 & a4 & a5 & a6 & a7 & a8 & a9 & ->).
  destruct (ten_elements _ Hl) as (b0 & b1 & b2 & b3 & b4 & b5 & b6 & b7 & b8 & b9 & ->).
  repeat match goal with
         | H : Forall2 _ (_ :: _) (_ :: _) |- _ =>
             apply Forall2_cons in H as [? H]
         end.
  unfold sum. simpl. lia.
Qed.

(** C8: for an id recorded in both snapshots from ten ticks each, with
    every late tick at least its early counterpart and a total that grew,
    the busy, io-wait and steal percentages are each between 0 and 100. *)
Theorem growing_counters_give_percentages (th : Thresholds) (g : Globals)
    (text_t0 text_t1 : string) (g0 g1 g' : Globals)
    (t0 t1 : gmap string pyval) (id : string) (early late : list Z) :
  get_procstat_now g text_t0 = Ok (g0, t0) →
  get_procstat_now g0 text_t1 = Ok (g1, t1) →
  get_cpu_stats th g text_t0 text_t1 = Ok g' →
  id ∈ cpu_id_list g1 →
  ticks_entries t0 id early → ticks_entries t1 id late →
  Forall2 Z.le early late →
  0 < sum late - sum early →
  ∃ busy io steal,
    cpu_percent g' !! id = Some busy
    ∧ io_wait_percent g' !! id = Some io
    ∧ steal_percent g' !! id = Some steal
    ∧ (0 <= num_value busy ∧ num_value busy <= 100)%Q
    ∧ (0 <= num_value io ∧ num_value io <= 100)%Q
    ∧ (0 <= num_value steal ∧ num_value steal <= 100)%Q.
Proof.
  intros H0 H1 H Hid [He E0] [Hl E1] Hle Hd.
  destruct (get_cpu_stats_values _ _ _ _ _ _ _ _ _ _ _ _ _ _ _ _ _ _
              H0 H1 H Hid E0 E1) as (Hb & Hw & Hs).
  destruct (growing_ticks_deltas early late He Hl Hle) as (Bb & Bw & Bs).
  unfold rate_value in *.
  destruct (Z.ltb_spec 0 (sum late - sum early)); [|lia].
  eexists _, _, _. repeat split; try eassumption;
    first [ apply (percent_of_bounds _ _ Hd Bb)
          | apply (percent_of_bounds _ _ Hd Bw)
          | apply (percent_of_bounds _ _ Hd Bs) ].
Qed.

Definition text_busy_before : string := "cpu 300 10 40 500 20 5 5 10 0 0
cpu0 300 10 40 500 20 5 5 10 0 0
ctxt 1000
processes 10".

Definition text_busy_after : string := "cpu 360 10 50 510 30 5 5 20 0 0
cpu0 360 10 50 510 30 5 5 20 0 0
ctxt 1500
processes 12".

Lemma growing_counters_give_percentages_witness :
  let g' := sampled defaults initial text_busy_before text_busy_after in
  ∃ busy io steal,
    cpu_percent g' !! "cpu0" = Some busy
    ∧ io_wait_percent g' !! "cpu0" = Some io
    ∧ steal_percent g' !! "cpu0" = Some steal
    ∧ (0 <= num_value busy ∧ num_value busy <= 100)%Q
    ∧ (0 <= num_value io ∧ num_value io <= 100)%Q
    ∧ (0 <= num_value steal ∧ num_value steal <= 100)%Q.
Proof.
  intros g'.
  apply (growing_counters_give_percentages defaults initial
           text_busy_before text_busy_after
           (snapshot initial text_busy_before).1
           (snapshot (snapshot initial text_busy_before).1
              text_busy_after).1
           g'
           (snapshot initial text_busy_before).2
           (snapshot (snapshot initial text_busy_before).1
              text_busy_after).2
           "cpu0"
           [300; 10; 40; 500; 20; 5; 5; 10; 0; 0]
           [360; 10; 50; 510; 30; 5; 5; 20; 0; 0]).
  - vm_compute. reflexivity.
  - vm_compute. reflexivity.
  - vm_compute. reflexivity.
  - vm_compute. right. left.
  - split; [reflexivity|].
    split; [|split; [|split]]; vm_compute; reflexivity.
  - split; [reflexivity|].
    split; [|split; [|split]]; vm_compute; reflexivity.
  - repeat constructor; vm_compute; discriminate.
  - vm_compute. reflexivity.
Defined.

(** ** The scalars *)

Definition text_scalars_before : string := "cpu 100 0 0 900 0 0 0 0 0 0
cpu0 100 0 0 900 0 0 0 0 0 0
ctxt 5000
processes 40".

Definition text_scalars_after : string := "cpu 150 0 0 950 0 0 0 0 0 0
cpu0 150 0 0 950 0 0 0 0 0 0
ctxt 7000
processes 45".

(** C4 fails on the code: the ['ctxt'] line goes from 5000 to 7000 and
    the ['processes'] line from 40 to 45 over a period of one second, yet
    both rates come out as 50, the growth of the first tick of the cpu
    line read last (100 to 150), not as 2000 and 5. *)
Theorem scalars_taken_from_last_cpu_line :
  let g' := sampled defaults initial text_scalars_before text_scalars_after in
  get_cpu_stats defaults initial text_scalars_before text_scalars_after
  = Ok g'
  ∧ (num_value (ctxt_per_second g') == 50)%Q
  ∧ (num_value (processes_per_second g') == 50)%Q
  ∧ ¬ (num_value (ctxt_per_second g') == (7000 - 5000) / 1)%Q
  ∧ ¬ (num_value (processes_per_second g') == (45 - 40) / 1)%Q.
Proof.
  intros g'. split; [vm_compute; reflexivity|].
  repeat split; vm_compute; congruence.
Qed.

(** ** The evaluation *)

Definition text_idle : string := "cpu 0 0 0 0 0 0 0 0 0 0
cpu0 0 0 0 0 0 0 0 0 0 0
cpu1 0 0 0 0 0 0 0 0 0 0
cpu2 0 0 0 0 0 0 0 0 0 0
ctxt 1
processes 1".

Definition text_critical_then_warning : string := "cpu 99 0 0 1 0 0 0 0 0 0
cpu0 96 0 0 4 0 0 0 0 0 0
ctxt 2
processes 2".

(** C1 fails on the code: the aggregate id is at 99% (at least [crit]),
    the core read after it at 96% (at least [warn] only); both messages
    are collected, but the severity returned, and the exit code of the
    run, is [WARNING]: the later assignment replaces [CRITICAL]. *)
Theorem later_warning_replaces_critical (repr_float : Q → string) :
  let g := sampled defaults initial text_idle text_critical_then_warning in
  get_cpu_stats defaults initial text_idle text_critical_then_warning = Ok g
  ∧ cpu_id_list g = ["cpu"; "cpu0"]
  ∧ (∃ p, cpu_percent g !! "cpu" = Some p
          ∧ ge_threshold p (crit defaults) = true)
  ∧ (∃ p, cpu_percent g !! "cpu0" = Some p
          ∧ ge_threshold p (crit defaults) = false
          ∧ ge_threshold p (warn defaults) = true)
  ∧ (∃ m1 m2, status_loop repr_float defaults g = Ok (WARNING, [m1; m2]))
  ∧ (∃ line, main repr_float defaults text_idle text_critical_then_warning
             = Ok (line, WARNING)).
Proof.
  intros g. split; [vm_compute; reflexivity|].
  split; [vm_compute; reflexivity|].
  split; [eexists; split; vm_compute; reflexivity|].
  split; [eexists; repeat split; vm_compute; reflexivity|].
  split; [eexists _, _|eexists]; vm_compute; reflexivity.
Qed.

Definition text_one_core_pegged : string := "cpu 120 0 0 180 0 0 0 0 0 0
cpu0 100 0 0 0 0 0 0 0 0 0
cpu1 10 0 0 90 0 0 0 0 0 0
cpu2 10 0 0 90 0 0 0 0 0 0
ctxt 2
processes 2".

(** C2 fails on the code: with the default thresholds
    ([per_cpu_crit = 100]), the aggregate at 40% and one core at 100%,
    the core is compared with [crit = 98] and the run exits [CRITICAL]. *)
Theorem pegged_core_is_critical (repr_float : Q → string) :
  let g := sampled defaults initial text_idle text_one_core_pegged in
  get_cpu_stats defaults initial text_idle text_one_core_pegged = Ok g
  ∧ per_cpu_crit defaults = 100
  ∧ (∃ p, cpu_percent g !! "cpu" = Some p ∧ (num_value p == 40)%Q)
  ∧ (∃ p, cpu_percent g !! "cpu0" = Some p ∧ (num_value p == 100)%Q
          ∧ status_loop repr_float defaults g
            = Ok (CRITICAL, [critical_message repr_float "cpu0" p 98]))
  ∧ (∃ line, main repr_float defaults text_idle text_one_core_pegged
             = Ok (line, CRITICAL)).
Proof.
  intros g. split; [vm_compute; reflexivity|].
  split; [reflexivity|].
  split; [eexists; split; vm_compute; reflexivity|].
  split; [eexists; repeat split; vm_compute; reflexivity|].
  eexists; vm_compute; reflexivity.
Qed.

Definition text_iowait_and_steal : string := "cpu 0 0 0 58 92 0 0 50 0 0
cpu0 0 0 0 8 92 0 0 0 0 0
cpu1 0 0 0 50 0 0 0 50 0 0
cpu2 0 0 0 0 0 0 0 0 0 0
ctxt 2
processes 2".

(** C3 fails on the code: a core at 92% io-wait (at least [io_warn = 90])
    and a core at 50% steal (at least [steal_warn = 30]) leave the
    evaluation at [OK] with the message for no breach. *)
Theorem iowait_and_steal_not_evaluated (repr_float : Q → string) :
  let g := sampled defaults initial text_idle text_iowait_and_steal in
  get_cpu_stats defaults initial text_idle text_iowait_and_steal = Ok g
  ∧ (∃ p, io_wait_percent g !! "cpu0" = Some p
          ∧ ge_threshold p (io_warn defaults) = true)
  ∧ (∃ p, steal_percent g !! "cpu1" = Some p
          ∧ ge_threshold p (steal_warn defaults) = true)
  ∧ check_status repr_float defaults g
    = Ok (OK, "OK: CPU usage is within normal parameters").
Proof.
  intros g. split; [vm_compute; reflexivity|].
  split; [eexists; split; vm_compute; reflexivity|].
  split; [eexists; split; vm_compute; reflexivity|].
  vm_compute; reflexivity.
Qed.

(** ** Tokens without whitespace *)

Fixpoint has_space (s : string) : bool :=
  match s with
  | "" => false
  | String c s' => is_space c || has_space s'
  end.

(** A field as [split()] yields them: not empty, no whitespace. *)
Definition clean (s : string) : Prop := s ≠ "" ∧ has_space s = false.

Lemma has_space_app a b : has_space (a +:+ b) = has_space a || has_space b.
Proof.
  induction a as [|c a IH]; [reflexivity|].
  change (String c a +:+ b) with (String c (a +:+ b)). simpl.
  rewrite IH. apply orb_assoc.
Qed.

Lemma clean_cons c w :
  is_space c = false → has_space w = false → clean (String c w).
Proof. intros Hc Hw. split; [discriminate|]. simpl. by rewrite Hc, Hw. Qed.

Lemma py_split_all_clean s : Forall clean (py_split s).
Proof.
  induction s as [|c s IH]; [constructor|].
  destruct (is_space c) eqn:Hc.
  - simpl. rewrite Hc. exact IH.
  - destruct s as [|c' s'].
    + simpl. rewrite Hc. constructor; [by apply clean_cons | constructor].
    + destruct (is_space c') eqn:Hc'.
      * replace (py_split (String c (String c' s')))
          with (String c "" :: py_split (String c' s'))
          by (simpl; rewrite Hc, Hc'; reflexivity).
        constructor; [by apply clean_cons | exact IH].
      * rewrite py_split_two by assumption.
        destruct (py_split (String c' s')) as [|w ws].
        -- constructor; [by apply clean_cons | constructor].
        -- apply Forall_cons in IH as [[_ Hw] Hws].
           constructor; [by apply clean_cons | exact Hws].
Qed.

Lemma py_split_clean_sep w rest :
  clean w → py_split (w +:+ " " +:+ rest) = w :: py_split rest.
Proof.
  intros [Hne Hw]. induction w as [|c w IH]; [contradiction|].
  simpl in Hw. apply orb_false_iff in Hw as [Hc Hw].
  destruct w as [|c' w'].
  - change (String c "" +:+ " " +:+ rest) with (String c (String " " rest)).
    simpl. rewrite Hc. reflexivity.
  - change (String c (String c' w') +:+ " " +:+ rest)
      with (String c (String c' (w' +:+ " " +:+ rest))).
    assert (is_space c' = false) as Hc'
      by (simpl in Hw; by apply orb_false_iff in Hw as [? _]).
    rewrite py_split_two by assumption.
    change (String c' (w' +:+ " " +:+ rest))
      with (String c' w' +:+ " " +:+ rest).
    rewrite IH by (discriminate || exact Hw). reflexivity.
Qed.

Lemma py_split_clean w : clean w → py_split w = [w].
Proof.
  intros [Hne Hw]. induction w as [|c w IH]; [contradiction|].
  simpl in Hw. apply orb_false_iff in Hw as [Hc Hw].
  destruct w as [|c' w'].
  - simpl. rewrite Hc. reflexivity.
  - assert (is_space c' = false) as Hc'
      by (simpl in Hw; by apply orb_false_iff in Hw as [? _]).
    rewrite py_split_two by assumption.
    rewrite IH by (discriminate || exact Hw). reflexivity.
Qed.

(** Splitting a line of clean tokens joined by single spaces gives the
    tokens back. *)
Lemma py_split_join arr : Forall clean arr → py_split (join " " arr) = arr.
Proof.
  induction 1 as [|w ws Hw Hws IH]; [reflexivity|].
  destruct ws as [|w' ws'].
  - by apply py_split_clean.
  - change (join " " (w :: w' :: ws'))
      with (w +:+ " " +:+ join " " (w' :: ws')).
    rewrite py_split_clean_sep by exact Hw. by rewrite IH.
Qed.

Lemma uint_no_space d : has_space (NilEmpty.string_of_uint d) = false.
Proof. induction d; simpl; auto. Qed.

Lemma fmt_int_no_space z : has_space (fmt_int z) = false.
Proof.
  unfold fmt_int. destruct (Z.to_int z) as [d|d]; simpl;
    destruct d; simpl; try reflexivity; apply uint_no_space.
Qed.

Section Tokens.

Variable repr_float : Q → string.
Hypothesis repr_float_no_space : ∀ q, has_space (repr_float q) = false.

Lemma fmt_no_space x : has_space (fmt repr_float x) = false.
Proof. destruct x; simpl; [apply fmt_int_no_space | apply repr_float_no_space]. Qed.

Lemma perf_token_clean label value w c :
  has_space label = false → clean (perf_token repr_float label value w c).
Proof.
  intros Hl. unfold perf_token. split.
  - destruct label; discriminate.
  - rewrite !has_space_app, Hl, fmt_no_space, !fmt_int_no_space.
    reflexivity.
Qed.

End Tokens.

(** ** The ids of a snapshot are clean fields *)

Lemma procstat_line_ids_clean st line st' :
  Forall clean (ids st) → procstat_line st line = Ok st' →
  Forall clean (ids st').
Proof.
  intros Hst H. rewrite procstat_line_classify in H.
  destruct (classify line).
  - pose proof (py_split_all_clean line) as Hline.
    apply record_cpu_inv in H as (cpu_id & fields & zs & Hps & _ & _ & ->).
    rewrite Hps in Hline. apply Forall_cons in Hline as [Hid _].
    simpl. apply Forall_app. split; [exact Hst|].
    constructor; [exact Hid | constructor].
  - unfold record_scalar in H. destruct (parts st); [|discriminate].
    apply bind_Ok in H as (v & _ & [= <-]). exact Hst.
  - unfold record_scalar in H. destruct (parts st); [|discriminate].
    apply bind_Ok in H as (v & _ & [= <-]). exact Hst.
  - injection H as <-. exact Hst.
Qed.

Lemma snapshot_ids_clean g text g' d :
  get_procstat_now g text = Ok (g', d) → Forall clean (cpu_id_list g').
Proof.
  intros (st & Hloop & _ & -> & _)%get_procstat_now_Ok. simpl.
  eapply (for_each_invariant (λ st, Forall clean (ids st)));
    [| |exact Hloop].
  - intros s x s' _. apply procstat_line_ids_clean.
  - constructor.
Qed.

(** ** After the sampling, every id has its percentages *)

Lemma rate_loop_is_Some t0 t1 ids g g' id :
  for_each (rate_step t0 t1) g ids = Ok g' → id ∈ ids →
  is_Some (cpu_percent g' !! id) ∧ is_Some (io_wait_percent g' !! id)
  ∧ is_Some (steal_percent g' !! id).
Proof.
  revert g g'. induction ids as [|x xs IH] using rev_ind;
    intros g g' Hloop Hin.
  - inversion Hin.
  - rewrite for_each_app in Hloop.
    apply bind_Ok in Hloop as (g1 & Hxs & Hx). simpl in Hx.
    apply bind_Ok in Hx as (g2 & Hx & [= <-]).
    apply rate_step_Ok_inv in Hx as (p & w & s & ->). simpl.
    destruct (decide (x = id)) as [->|Hne].
    + rewrite !lookup_insert_eq. eauto.
    + rewrite !lookup_insert_ne by exact Hne.
      apply elem_of_app in Hin as [Hin | Hin%list_elem_of_singleton];
        [|congruence].
      exact (IH g g1 Hxs Hin).
Qed.

Lemma sampled_ids th g0 text_t0 text_t1 g :
  get_cpu_stats th g0 text_t0 text_t1 = Ok g →
  Forall clean (cpu_id_list g)
  ∧ ∀ id, id ∈ cpu_id_list g →
      is_Some (cpu_percent g !! id) ∧ is_Some (io_wait_percent g !! id)
      ∧ is_Some (steal_percent g !! id).
Proof.
  intros H.
  destruct (get_cpu_stats_Ok _ _ _ _ _ H)
    as (ga & t0 & gb & t1 & gl & c & p & H0 & H1 & Hl & _ & _ & _).
  destruct (get_cpu_stats_percentages _ _ _ _ _ _ _ _ _ H0 H1 H)
    as (gl' & Hl' & -> & -> & -> & ->).
  rewrite Hl in Hl'. injection Hl' as <-.
  split.
  - eapply snapshot_ids_clean, H1.
  - intros id Hid. eapply rate_loop_is_Some; [exact Hl | exact Hid].
Qed.

(** ** [performance_data] *)

Section Performance.

Variable repr_float : Q → string.
Variable th : Thresholds.
Variable g : Globals.

(** The three tokens of one id (lines 139-141). *)
Definition triplet (cpu_id : string) : list string :=
  [ perf_token repr_float cpu_id
      (default (PyInt 0) (cpu_percent g !! cpu_id)) (warn th) (crit th);
    perf_token repr_float (cpu_id +:+ "_iowait")
      (default (PyInt 0) (io_wait_percent g !! cpu_id))
      (io_warn th) (io_crit th);
    perf_token repr_float (cpu_id +:+ "_steal")
      (default (PyInt 0) (steal_percent g !! cpu_id))
      (steal_warn th) (steal_crit th) ].

Lemma perf_step_Ok arr cpu_id :
  is_Some (cpu_percent g !! cpu_id) →
  is_Some (io_wait_percent g !! cpu_id) →
  is_Some (steal_percent g !! cpu_id) →
  perf_step repr_float th g arr cpu_id = Ok (arr ++ triplet cpu_id).
Proof.
  intros [p Hp] [w Hw] [s Hs]. unfold perf_step, triplet.
  rewrite (getitem_Some _ _ _ Hp), (getitem_Some _ _ _ Hw),
    (getitem_Some _ _ _ Hs), Hp, Hw, Hs. simpl.
  rewrite <- !app_assoc. reflexivity.
Qed.

Lemma perf_loop_Ok ids arr :
  (∀ id, id ∈ ids →
     is_Some (cpu_percent g !! id) ∧ is_Some (io_wait_percent g !! id)
     ∧ is_Some (steal_percent g !! id)) →
  for_each (perf_step repr_float th g) arr ids
  = Ok (arr ++ flat_map triplet ids).
Proof.
  revert arr. induction ids as [|x xs IH]; intros arr Hall; simpl.
  - by rewrite app_nil_r.
  - destruct (Hall x) as (Hp & Hw & Hs); [by left|].
    rewrite (perf_step_Ok arr x Hp Hw Hs). simpl.
    rewrite IH by (intros id Hid; apply Hall; by right).
    rewrite <- !app_assoc. reflexivity.
Qed.

(** An id without a percentage makes the formatter raise [KeyError]. *)
Lemma perf_step_missing arr cpu_id :
  cpu_percent g !! cpu_id = None →
  perf_step repr_float th g arr cpu_id = Raise (KeyError cpu_id).
Proof. intros H. unfold perf_step. by rewrite (getitem_None _ _ H). Qed.

Lemma flat_map_triplet_length ids :
  length (flat_map triplet ids) = (3 * length ids)%nat.
Proof. induction ids as [|x xs IH]; simpl; [reflexivity | rewrite IH; lia]. Qed.

Hypothesis repr_float_no_space : ∀ q, has_space (repr_float q) = false.

Lemma triplet_clean cpu_id : clean cpu_id → Forall clean (triplet cpu_id).
Proof.
  intros [_ Hid]. unfold triplet.
  repeat constructor;
    apply perf_token_clean; try exact repr_float_no_space;
    rewrite ?has_space_app, Hid; reflexivity.
Qed.

Lemma flat_map_triplet_clean ids :
  Forall clean ids → Forall clean (flat_map triplet ids).
Proof.
  induction 1 as [|x xs Hx _ IH]; [constructor|].
  change (flat_map triplet (x :: xs))
    with (triplet x ++ flat_map triplet xs).
  apply Forall_app. split; [by apply triplet_clean | exact IH].
Qed.

End Performance.

Lemma flat_map_triplet_lookup repr_float th g ids i cpu_id j :
  ids !! i = Some cpu_id → (j < 3)%nat →
  flat_map (triplet repr_float th g) ids !! (3 * i + j)%nat
  = triplet repr_float th g cpu_id !! j.
Proof.
  revert i. induction ids as [|x xs IH]; intros [|i] H Hj; try discriminate.
  - injection H as ->.
    change (flat_map (triplet repr_float th g) (cpu_id :: xs))
      with (triplet repr_float th g cpu_id
              ++ flat_map (triplet repr_float th g) xs).
    rewrite lookup_app_l by (simpl; lia). reflexivity.
  - simpl in H.
    change (flat_map (triplet repr_float th g) (x :: xs))
      with (triplet repr_float th g x
              ++ flat_map (triplet repr_float th g) xs).
    rewrite lookup_app_r by (simpl; lia).
    replace (3 * S i + j - length (triplet repr_float th g x))%nat
      with (3 * i + j)%nat by (simpl; lia).
    by apply IH.
Qed.

(** C9: after a sampling that returned, the formatter returns.  Its line
    is the space-joined list of [3 * n] tokens for the [n] discovered ids,
    which splitting the line at whitespace gives back.  The tokens at the
    positions [3 * i], [3 * i + 1] and [3 * i + 2] are those of the
    [i]-th id, in the order of discovery, and read
    [id=busy%;warn;crit;0;100], [id_iowait=io%;io_warn;io_crit;0;100] and
    [id_steal=steal%;steal_warn;steal_crit;0;100]: the thresholds are
    printed after the value, whatever the value is, and compared with
    nothing.  (A float is assumed to print without whitespace.) *)
Theorem three_tokens_per_id (repr_float : Q → string) (th th0 : Thresholds)
    (g0 g : Globals) (text_t0 text_t1 : string) :
  (∀ q, has_space (repr_float q) = false) →
  get_cpu_stats th0 g0 text_t0 text_t1 = Ok g →
  ∃ arr,
    perf_message_array repr_float th g = Ok arr
    ∧ performance_data repr_float th g = Ok (join " " arr)
    ∧ length arr = (3 * length (cpu_id_list g))%nat
    ∧ py_split (join " " arr) = arr
    ∧ ∀ i cpu_id, cpu_id_list g !! i = Some cpu_id →
        ∃ busy io steal,
          cpu_percent g !! cpu_id = Some busy
          ∧ io_wait_percent g !! cpu_id = Some io
          ∧ steal_percent g !! cpu_id = Some steal
          ∧ arr !! (3 * i)%nat
            = Some (cpu_id +:+ "=" +:+ fmt repr_float busy +:+ "%;"
                    +:+ fmt_int (warn th) +:+ ";" +:+ fmt_int (crit th)
                    +:+ ";0;100")
          ∧ arr !! (3 * i + 1)%nat
            = Some ((cpu_id +:+ "_iowait") +:+ "=" +:+ fmt repr_float io
                    +:+ "%;" +:+ fmt_int (io_warn th) +:+ ";"
                    +:+ fmt_int (io_crit th) +:+ ";0;100")
          ∧ arr !! (3 * i + 2)%nat
            = Some ((cpu_id +:+ "_steal") +:+ "=" +:+ fmt repr_float steal
                    +:+ "%;" +:+ fmt_int (steal_warn th) +:+ ";"
                    +:+ fmt_int (steal_crit th) +:+ ";0;100").
Proof.
  intros Hrepr H. destruct (sampled_ids _ _ _ _ _ H) as [Hclean Hsome].
  exists (flat_map (triplet repr_float th g) (cpu_id_list g)).
  assert (perf_message_array repr_float th g
          = Ok (flat_map (triplet repr_float th g) (cpu_id_list g))) as Harr.
  { unfold perf_message_array.
    rewrite (perf_loop_Ok repr_float th g _ [] Hsome). reflexivity. }
  split; [exact Harr|].
  split; [unfold performance_data; rewrite Harr; reflexivity|].
  split; [apply flat_map_triplet_length|].
  split; [apply py_split_join, flat_map_triplet_clean; assumption|].
  intros i cpu_id Hi.
  destruct (Hsome cpu_id) as ([b Hb] & [w Hw] & [s Hs]).
  { eapply list_elem_of_lookup_2, Hi. }
  exists b, w, s. split; [exact Hb|]. split; [exact Hw|].
  split; [exact Hs|].
  split; [|split].
  - replace (3 * i)%nat with (3 * i + 0)%nat by lia.
    rewrite (flat_map_triplet_lookup _ _ _ _ _ _ _ Hi) by lia.
    unfold triplet. rewrite Hb. reflexivity.
  - rewrite (flat_map_triplet_lookup _ _ _ _ _ _ _ Hi) by lia.
    unfold triplet. rewrite Hw. reflexivity.
  - rewrite (flat_map_triplet_lookup _ _ _ _ _ _ _ Hi) by lia.
    unfold triplet. rewrite Hs. reflexivity.
Qed.

(** How Python prints the two floats of the example. *)
Definition repr_example (q : Q) : string :=
  if Qeq_bool q 50 then "50.0" else "0.0".

Lemma three_tokens_per_id_witness :
  let g := sampled defaults initial text_scalars_before text_scalars_after in
  performance_data repr_example defaults g
  = Ok ("cpu=50.0%;95;98;0;100 cpu_iowait=0.0%;90;98;0;100 "
        +:+ "cpu_steal=0.0%;30;80;0;100 cpu0=50.0%;95;98;0;100 "
        +:+ "cpu0_iowait=0.0%;90;98;0;100 cpu0_steal=0.0%;30;80;0;100")
  ∧ ∃ arr,
      perf_message_array repr_example defaults g = Ok arr
      ∧ length arr = 6%nat
      ∧ py_split (join " " arr) = arr
      ∧ arr !! 4%nat = Some "cpu0_iowait=0.0%;90;98;0;100".
Proof.
  intros g. split; [vm_compute; reflexivity|].
  destruct (three_tokens_per_id repr_example defaults defaults initial g
              text_scalars_before text_scalars_after)
    as (arr & Harr & _ & Hlen & Hsplit & Hform).
  { intros q. unfold repr_example. destruct (Qeq_bool q 50); reflexivity. }
  { vm_compute. reflexivity. }
  exists arr. split; [exact Harr|].
  split; [rewrite Hlen; vm_compute; reflexivity|].
  split; [exact Hsplit|].
  destruct (Hform 1%nat "cpu0") as (b & w & s & _ & Hw & _ & _ & Hio & _).
  { vm_compute. reflexivity. }
  vm_compute in Hw. injection Hw as <-.
  change (3 * 1 + 1)%nat with 4%nat in Hio.
  rewrite Hio. vm_compute. reflexivity.
Defined.

(** * Further properties of the script *)

(** ** [get_procstat_now]: which lines count *)

(** The first field of a line. *)
Definition first_field (line : string) : string := hd "" (py_split line).

Definition is_cpu_line (line : string) : bool := startswith line "cpu".

(** A line that one of the four branches of the loop takes up. *)
Definition relevant (line : string) : bool :=
  startswith line "cpu" || startswith line "ctxt"
  || startswith line "processes".

Lemma classify_not_cpu line :
  classify line ≠ CpuLine → is_cpu_line line = false.
Proof.
  intros H. unfold is_cpu_line. destruct (startswith line "cpu") eqn:E;
    [|reflexivity].
  exfalso. apply H. by apply classify_cpu.
Qed.

Lemma classify_other line : classify line = OtherLine ↔ relevant line = false.
Proof.
  unfold relevant, classify. 
  destruct (startswith line "cpu ") eqn:E4.
  - apply startswith_spec in E4 as [rest ->].
    assert (startswith ("cpu " +:+ rest) "cpu" = true) as ->
      by (apply startswith_spec; exists (" " +:+ rest); reflexivity).
    split; discriminate.
  - destruct (startswith line "cpu"); [split; discriminate|].
    destruct (startswith line "ctxt"); [split; discriminate|].
    destruct (startswith line "processes"); split; (discriminate || reflexivity).
Qed.

Lemma procstat_loop_ids lines st st' :
  for_each procstat_line st lines = Ok st' →
  ids st' = ids st ++ map first_field (List.filter is_cpu_line lines).
Proof.
  revert st. induction lines as [|l ls IH]; intros st; simpl.
  - intros [= <-]. by rewrite app_nil_r.
  - intros (s1 & Hl & Hls)%bind_Ok. rewrite (IH _ Hls).
    rewrite procstat_line_classify in Hl.
    destruct (classify l) eqn:Hc.
    + assert (is_cpu_line l = true) as -> by (by apply classify_cpu).
      apply record_cpu_inv in Hl as (id & fs & zs & Hps & _ & _ & ->).
      simpl. unfold first_field. rewrite Hps. simpl.
      by rewrite <- app_assoc.
    + rewrite classify_not_cpu by congruence.
      unfold record_scalar in Hl. destruct (parts st); [|discriminate].
      apply bind_Ok in Hl as (v & _ & [= <-]). reflexivity.
    + rewrite classify_not_cpu by congruence.
      unfold record_scalar in Hl. destruct (parts st); [|discriminate].
      apply bind_Ok in Hl as (v & _ & [= <-]). reflexivity.
    + rewrite classify_not_cpu by congruence.
      injection Hl as <-. reflexivity.
Qed.

(** X1: the id list after a read is the list of the first fields of the
    lines that begin with ['cpu'], in the order of the text and with
    repetitions; the list held before is discarded, and no other global
    changes. *)
Theorem ids_in_text_order (g g' : Globals) (text : string)
    (d : gmap string pyval) :
  get_procstat_now g text = Ok (g', d) →
  cpu_id_list g'
  = map first_field (List.filter is_cpu_line (split_lines text))
  ∧ g' = set_cpu_id_list (cpu_id_list g') g.
Proof.
  intros (st & Hloop & _ & -> & _)%get_procstat_now_Ok.
  apply procstat_loop_ids in Hloop. simpl in *. rewrite Hloop.
  split; reflexivity.
Qed.

Definition text_with_noise : string := "cpu1 5 0 0 5 0 0 0 0 0 0
intr 12345 6 7
cpu0 1 2 3 4 5 6 7 8 9 10
btime 1700000000
cpu1 6 0 0 6 0 0 0 0 0 0
ctxt 77
processes 3
softirq 1 2 3".

Definition text_without_noise : string := "cpu1 5 0 0 5 0 0 0 0 0 0
cpu0 1 2 3 4 5 6 7 8 9 10
cpu1 6 0 0 6 0 0 0 0 0 0
ctxt 77
processes 3".

Lemma ids_in_text_order_witness :
  let g := set_cpu_id_list ["stale"] initial in
  cpu_id_list (snapshot g text_with_noise).1 = ["cpu1"; "cpu0"; "cpu1"]
  ∧ (snapshot g text_with_noise).1
    = set_cpu_id_list (cpu_id_list (snapshot g text_with_noise).1) g.
Proof.
  intros g.
  destruct (ids_in_text_order g (snapshot g text_with_noise).1
              text_with_noise (snapshot g text_with_noise).2) as [H1 H2].
  - vm_compute. reflexivity.
  - split; [|exact H2]. rewrite H1. vm_compute. reflexivity.
Defined.

Lemma for_each_filter_skip {S A} (body : S → A → result S) (f : A → bool)
    (xs : list A) :
  (∀ x s, f x = false → body s x = Ok s) →
  ∀ s, for_each body s (List.filter f xs) = for_each body s xs.
Proof.
  intros Hskip. induction xs as [|x xs IH]; intros s; simpl; [reflexivity|].
  destruct (f x) eqn:Hf; simpl.
  - destruct (body s x); simpl; [apply IH | reflexivity].
  - rewrite (Hskip x s Hf). simpl. apply IH.
Qed.

(** X2: lines that begin with none of ['cpu'], ['ctxt'], ['processes'] have
    no effect: a text whose lines are the relevant lines of another text
    reads to the same result. *)
Theorem other_lines_ignored (g : Globals) (text text' : string) :
  split_lines text' = List.filter relevant (split_lines text) →
  get_procstat_now g text' = get_procstat_now g text.
Proof.
  intros H. unfold get_procstat_now. rewrite H.
  rewrite for_each_filter_skip; [reflexivity|].
  intros x s Hx. apply classify_other in Hx.
  rewrite procstat_line_classify, Hx. reflexivity.
Qed.

Lemma other_lines_ignored_witness :
  get_procstat_now initial text_without_noise
  = get_procstat_now initial text_with_noise.
Proof.
  apply other_lines_ignored. vm_compute. reflexivity.
Defined.

(** Two lines that the loop treats alike: equal, or both beginning with
    the same scalar token. *)
Definition same_to_reader (a b : string) : Prop :=
  a = b ∨ (classify a = classify b ∧ classify a ≠ CpuLine).

(** X3: what follows ['ctxt'] or ['processes'] on its line is never read:
    texts that differ only there read to the same result. *)
Theorem scalar_line_content_unread (g : Globals) (text text' : string) :
  Forall2 same_to_reader (split_lines text) (split_lines text') →
  get_procstat_now g text = get_procstat_now g text'.
Proof.
  intros H. unfold get_procstat_now.
  enough (∀ st, for_each procstat_line st (split_lines text)
                = for_each procstat_line st (split_lines text')) as ->
    by reflexivity.
  induction H as [|a b la lb Hab _ IH]; intros st; [reflexivity|].
  simpl.
  assert (procstat_line st a = procstat_line st b) as ->.
  { destruct Hab as [-> | [Hc Hn]]; [reflexivity|].
    rewrite !procstat_line_classify, <- Hc.
    destruct (classify a); congruence. }
  destruct (procstat_line st b); simpl; [apply IH | reflexivity].
Qed.

Definition text_scalars_garbled : string := "cpu 100 0 0 900 0 0 0 0 0 0
cpu0 100 0 0 900 0 0 0 0 0 0
ctxt
processes_are_not_counted here".

Lemma scalar_line_content_unread_witness :
  get_procstat_now initial text_scalars_before
  = get_procstat_now initial text_scalars_garbled.
Proof.
  apply scalar_line_content_unread.
  replace (split_lines text_scalars_before)
    with ["cpu 100 0 0 900 0 0 0 0 0 0"; "cpu0 100 0 0 900 0 0 0 0 0 0";
          "ctxt 5000"; "processes 40"] by (vm_compute; reflexivity).
  replace (split_lines text_scalars_garbled)
    with ["cpu 100 0 0 900 0 0 0 0 0 0"; "cpu0 100 0 0 900 0 0 0 0 0 0";
          "ctxt"; "processes_are_not_counted here"]
    by (vm_compute; reflexivity).
  constructor; [left; reflexivity|].
  constructor; [left; reflexivity|].
  constructor; [right; split; vm_compute; congruence|].
  constructor; [right; split; vm_compute; congruence|].
  constructor.
Defined.

(** ** [get_procstat_now]: edge cases of a line *)

Lemma record_cpu_split_too_long st line zs :
  classify line = CpuLine → int_all (drop 1 (py_split line)) = Ok zs →
  (10 < length zs)%nat → procstat_line st line = Raise ValueError.
Proof.
  intros Hc Hint Hlen. rewrite procstat_line_classify, Hc.
  apply classify_cpu, startswith_cpu in Hc as [rest ->].
  destruct (py_split_cpu rest) as (w & ws & Hsplit).
  rewrite Hsplit in *. simpl in Hint. rewrite drop_0 in Hint.
  by apply (record_cpu_too_long st _ ws zs).
Qed.

(** X4: a cpu line with more than ten integer fields makes the read raise:
    the ten names of the tuple assignment of line 105 cannot take
    them. *)
Theorem eleven_fields_abort (g : Globals) (text line : string)
    (zs : list Z) :
  line ∈ split_lines text → classify line = CpuLine →
  int_all (drop 1 (py_split line)) = Ok zs → (10 < length zs)%nat →
  raises (get_procstat_now g text).
Proof.
  intros Hin Hc Hint Hlen. unfold get_procstat_now.
  apply bind_raises. eapply for_each_raises; [exact Hin|].
  intros st. exists ValueError.
  eapply record_cpu_split_too_long; eassumption.
Qed.

Definition text_eleven_fields : string := "cpu 1 2 3 4 5 6 7 8 9 10 11
ctxt 5
processes 6".

Lemma eleven_fields_abort_witness :
  raises (get_procstat_now initial text_eleven_fields).
Proof.
  apply (eleven_fields_abort initial text_eleven_fields
           "cpu 1 2 3 4 5 6 7 8 9 10 11" [1; 2; 3; 4; 5; 6; 7; 8; 9; 10; 11]).
  - vm_compute. left.
  - vm_compute. reflexivity.
  - vm_compute. reflexivity.
  - vm_compute. lia.
Defined.

(** X5: after a cpu line, a scalar line stores the first tick field of that
    cpu line, as a string; if the cpu line had no field at all the scalar
    line raises [IndexError]. *)
Theorem scalar_takes_first_tick (st st' : Locals) (cpu_line line : string) :
  classify cpu_line = CpuLine →
  classify line = CtxtLine ∨ classify line = ProcessesLine →
  procstat_line st cpu_line = Ok st' →
  procstat_line st' line =
    match drop 1 (py_split cpu_line) with
    | [] => Raise IndexError
    | tick :: _ =>
        Ok {| cpu_stats :=
                <[(if startswith line "ctxt" then "ctxt" else "processes")
                  := VStr tick]> (cpu_stats st');
              ids := ids st';
              parts := Some (py_split cpu_line) |}
    end.
Proof.
  intros Hc Hline H. rewrite procstat_line_classify, Hc in H.
  apply record_cpu_inv in H as (id & fs & zs & Hps & _ & _ & ->).
  rewrite Hps. simpl. rewrite drop_0.
  rewrite procstat_line_classify.
  assert (startswith line "ctxt" = true ∧ classify line = CtxtLine
          ∨ startswith line "ctxt" = false ∧ classify line = ProcessesLine)
    as [[-> ->] | [-> ->]].
  { unfold classify in *.
    destruct (startswith line "cpu "); [destruct Hline; discriminate|].
    destruct (startswith line "cpu"); [destruct Hline; discriminate|].
    destruct (startswith line "ctxt"); [by left|].
    destruct (startswith line "processes"); [by right|].
    destruct Hline; discriminate. }
  - unfold record_scalar, list_getitem. simpl. destruct fs; reflexivity.
  - unfold record_scalar, list_getitem. simpl. destruct fs; reflexivity.
Qed.

Lemma scalar_takes_first_tick_witness :
  procstat_line
    {| cpu_stats :=
         stored ∅ "cpu" [0; 0; 0; 0; 0; 0; 0; 0; 0; 0];
       ids := ["cpu"]; parts := Some ["cpu"] |}
    "ctxt 12345"
  = Raise IndexError.
Proof.
  apply (scalar_takes_first_tick
           {| cpu_stats := ∅; ids := []; parts := None |} _ "cpu").
  - vm_compute. reflexivity.
  - left. vm_compute. reflexivity.
  - vm_compute. reflexivity.
Defined.

(** ** [get_procstat_now]: what a returned snapshot holds *)

(** Only the two scalar keys hold strings. *)
Definition strings_under_scalars (d : gmap string pyval) : Prop :=
  ∀ k s, d !! k = Some (VStr s) → k = "ctxt" ∨ k = "processes".

Lemma procstat_line_strings st line st' :
  strings_under_scalars (cpu_stats st) → procstat_line st line = Ok st' →
  strings_under_scalars (cpu_stats st').
Proof.
  intros Hst H. rewrite procstat_line_classify in H.
  destruct (classify line).
  - apply record_cpu_inv in H as (id & fs & zs & _ & _ & _ & ->).
    intros k s Hk%stored_lookup_str. by apply (Hst k s).
  - unfold record_scalar in H. destruct (parts st); [|discriminate].
    apply bind_Ok in H as (v & _ & [= <-]). simpl.
    intros k s. rewrite lookup_insert. case_decide; [auto|apply Hst].
  - unfold record_scalar in H. destruct (parts st); [|discriminate].
    apply bind_Ok in H as (v & _ & [= <-]). simpl.
    intros k s. rewrite lookup_insert. case_decide; [auto|apply Hst].
  - injection H as <-. exact Hst.
Qed.

(** X6: in a snapshot that was returned, every listed id begins with
    ['cpu'], is a whitespace-free field and has its four integer entries;
    a string is stored only under ['ctxt'] or ['processes'], and it is an
    integer literal, so that [float] accepts it. *)
Theorem snapshot_well_formed (g g' : Globals) (text : string)
    (d : gmap string pyval) :
  get_procstat_now g text = Ok (g', d) →
  (∀ id, id ∈ cpu_id_list g' →
     startswith id "cpu" = true ∧ clean id ∧ has_cpu d id)
  ∧ (∀ k s, d !! k = Some (VStr s) →
       (k = "ctxt" ∨ k = "processes")
       ∧ ∃ z, int_literal s = Some z
              ∧ py_float (VStr s) = Ok (inject_Z z)).
Proof.
  intros H. split.
  - intros id Hid. split; [eapply snapshot_ids_cpu; eassumption|].
    split; [|eapply snapshot_has_ids; eassumption].
    pose proof (snapshot_ids_clean _ _ _ _ H) as Hc.
    rewrite Forall_forall in Hc. by apply Hc.
  - intros k s Hk. split.
    + destruct (get_procstat_now_Ok _ _ _ _ H) as (st & Hloop & _ & _ & ->).
      revert k s Hk.
      eapply (for_each_invariant
                (λ st, strings_under_scalars (cpu_stats st)));
        [| |exact Hloop].
      * intros s x s' _. apply procstat_line_strings.
      * intros k s. simpl. rewrite lookup_empty. discriminate.
    + destruct (get_procstat_now_Ok _ _ _ _ H) as (st & _ & Hinv & _ & ->).
      destruct (inv_str _ Hinv _ _ Hk) as [[z Hz] _].
      exists z. split; [exact Hz|]. simpl. by rewrite Hz.
Qed.

Lemma snapshot_well_formed_witness :
  let r := snapshot initial text_with_noise in
  (∀ id, id ∈ cpu_id_list r.1 →
     startswith id "cpu" = true ∧ clean id ∧ has_cpu r.2 id)
  ∧ (∀ k s, r.2 !! k = Some (VStr s) →
       (k = "ctxt" ∨ k = "processes")
       ∧ ∃ z, int_literal s = Some z
              ∧ py_float (VStr s) = Ok (inject_Z z)).
Proof.
  intros r. apply (snapshot_well_formed initial r.1 text_with_noise r.2).
  vm_compute. reflexivity.
Defined.

(** ** [get_cpu_stats]: edge cases *)

Lemma get_procstat_now_any g h text g' d :
  get_procstat_now g text = Ok (g', d) →
  get_procstat_now h text = Ok (set_cpu_id_list (cpu_id_list g') h, d).
Proof.
  unfold get_procstat_now. intros (st & -> & [= <- <-])%bind_Ok.
  reflexivity.
Qed.

(** X7: sampling the same text twice gives the integer 0 for the three
    percentages of every id: no total has grown. *)
Theorem unchanged_text_gives_zero (th : Thresholds) (g g' : Globals)
    (text : string) :
  get_cpu_stats th g text text = Ok g' →
  ∀ id, id ∈ cpu_id_list g' →
    cpu_percent g' !! id = Some (PyInt 0)
    ∧ io_wait_percent g' !! id = Some (PyInt 0)
    ∧ steal_percent g' !! id = Some (PyInt 0).
Proof.
  intros H id Hid.
  destruct (get_cpu_stats_Ok _ _ _ _ _ H)
    as (g0 & t0 & g1 & t1 & gl & c & p & H0 & H1 & _).
  pose proof (get_procstat_now_any _ g0 _ _ _ H0) as H0'.
  rewrite H1 in H0'. injection H0' as Hg1 <-.
  destruct (get_cpu_stats_percentages _ _ _ _ _ _ _ _ _ H0 H1 H)
    as (gl' & _ & _ & _ & _ & Hids).
  rewrite Hids in Hid.
  destruct (snapshot_has_ids _ _ _ _ H1 id Hid) as (b & t & w & s & E).
  destruct (get_cpu_stats_values _ _ _ _ _ _ _ _ _ _ _ _ _ _ _ _ _ _
              H0 H1 H Hid E E) as (Hb & Hw & Hs).
  rewrite Hb, Hw, Hs. unfold rate_value. rewrite Z.sub_diag. auto.
Qed.

Lemma unchanged_text_gives_zero_witness :
  let g' := sampled defaults initial text_with_noise text_with_noise in
  cpu_percent g' !! "cpu0" = Some (PyInt 0)
  ∧ io_wait_percent g' !! "cpu0" = Some (PyInt 0)
  ∧ steal_percent g' !! "cpu0" = Some (PyInt 0).
Proof.
  intros g'.
  apply (unchanged_text_gives_zero defaults initial g' text_with_noise).
  - vm_compute. reflexivity.
  - vm_compute. right. left.
Defined.

Lemma per_second_zero_period t0 t1 key :
  raises (per_second t0 t1 key 0).
Proof.
  unfold per_second.
  destruct (getitem t1 key) as [v1|e]; simpl; [|eexists; reflexivity].
  destruct (py_float v1) as [f1|e]; simpl; [|eexists; reflexivity].
  destruct (getitem t0 key) as [v0|e]; simpl; [|eexists; reflexivity].
  destruct (py_float v0) as [f0|e]; simpl; eexists; reflexivity.
Qed.

(** X8: with a sampling period of zero no sampling returns, whatever the two
    texts are: when everything else goes well the division of line 132
    raises. *)
Theorem zero_period_never_returns (th : Thresholds) (g : Globals)
    (text_t0 text_t1 : string) :
  sample_period th = 0 → raises (get_cpu_stats th g text_t0 text_t1).
Proof.
  intros Hp.
  destruct (result_cases (get_cpu_stats th g text_t0 text_t1))
    as [[g' H] | H]; [|exact H].
  destruct (get_cpu_stats_Ok _ _ _ _ _ H)
    as (g0 & t0 & g1 & t1 & gl & c & p & _ & _ & _ & Hc & _).
  rewrite Hp in Hc.
  destruct (per_second_zero_period t0 t1 "ctxt") as [e He]. congruence.
Qed.

Definition zero_period : Thresholds := {|
  warn := 95; crit := 98; per_cpu_warn := 98; per_cpu_crit := 100;
  io_warn := 90; io_crit := 98; io_warn_overall := 100;
  io_crit_overall := 100; steal_warn := 30; steal_crit := 80;
  sample_period := 0; perfdata_abs := 1
|}.

Lemma zero_period_never_returns_witness :
  raises (get_cpu_stats zero_period initial text_scalars_before
            text_scalars_after).
Proof. apply zero_period_never_returns. reflexivity. Defined.

(** The text has no line that begins with [key]. *)
Definition no_line_with (key text : string) : Prop :=
  Forall (λ l, startswith l key = false) (split_lines text).

Lemma classify_scalar_starts line :
  (classify line = CtxtLine → startswith line "ctxt" = true)
  ∧ (classify line = ProcessesLine → startswith line "processes" = true).
Proof.
  unfold classify.
  destruct (startswith line "cpu "); [split; discriminate|].
  destruct (startswith line "cpu"); [split; discriminate|].
  destruct (startswith line "ctxt"); [split; [reflexivity|discriminate]|].
  destruct (startswith line "processes"); split; (reflexivity || discriminate).
Qed.

Lemma stored_lookup_other d cpu_id ticks k :
  startswith cpu_id "cpu" = true → startswith k "cpu" = false →
  stored d cpu_id ticks !! k = d !! k.
Proof.
  intros Hid Hk. unfold stored.
  rewrite !lookup_insert_ne; [reflexivity| | | |]; intros <-;
    first [ rewrite Hid in Hk
          | rewrite (startswith_cpu_suffix _ _ Hid) in Hk ];
    discriminate.
Qed.

Lemma missing_scalar_line key g text g' d :
  key = "ctxt" ∨ key = "processes" → no_line_with key text →
  get_procstat_now g text = Ok (g', d) → d !! key = None.
Proof.
  intros Hkey Hno (st & Hloop & _ & _ & ->)%get_procstat_now_Ok.
  unfold no_line_with in Hno. rewrite Forall_forall in Hno.
  eapply (for_each_invariant
            (λ st, parse_inv st ∧ cpu_stats st !! key = None));
    [| |exact Hloop].
  - intros s l s' Hl [Hinv Hs] Hstep.
    split; [eapply procstat_line_inv; eassumption|].
    pose proof (Hno l Hl) as Hstart.
    rewrite procstat_line_classify in Hstep.
    destruct (classify l) eqn:Hc.
    + apply classify_cpu, startswith_cpu in Hc as [rest ->].
      destruct (py_split_cpu rest) as (w & ws & Hsplit).
      apply record_cpu_inv in Hstep as (id & fs & zs & Hps & _ & _ & ->).
      rewrite Hsplit in Hps. injection Hps as <- <-. simpl.
      rewrite stored_lookup_other; [exact Hs | apply startswith_app |].
      destruct Hkey as [-> | ->]; reflexivity.
    + apply classify_scalar_starts in Hc.
      unfold record_scalar in Hstep. destruct (parts s); [|discriminate].
      apply bind_Ok in Hstep as (v & _ & [= <-]). simpl.
      rewrite lookup_insert_ne; [exact Hs|].
      destruct Hkey as [-> | ->]; [congruence | discriminate].
    + apply classify_scalar_starts in Hc.
      unfold record_scalar in Hstep. destruct (parts s); [|discriminate].
      apply bind_Ok in Hstep as (v & _ & [= <-]). simpl.
      rewrite lookup_insert_ne; [exact Hs|].
      destruct Hkey as [-> | ->]; [discriminate | congruence].
    + injection Hstep as <-. exact Hs.
  - split; [|apply lookup_empty].
    split; simpl; try (intros ? []%elem_of_nil); discriminate.
Qed.

(** X9: a text without a line beginning with ['ctxt'], or without one
    beginning with ['processes'], cannot be sampled, be it the early or
    the late one: the lookups of lines 132-133 raise [KeyError] if
    nothing raised before. *)
Theorem scalar_lines_required (th : Thresholds) (g : Globals)
    (text_t0 text_t1 key : string) :
  key = "ctxt" ∨ key = "processes" →
  no_line_with key text_t0 ∨ no_line_with key text_t1 →
  raises (get_cpu_stats th g text_t0 text_t1).
Proof.
  intros Hkey Hno.
  destruct (result_cases (get_cpu_stats th g text_t0 text_t1))
    as [[g' H] | H]; [|exact H].
  destruct (get_cpu_stats_Ok _ _ _ _ _ H)
    as (g0 & t0 & g1 & t1 & gl & c & p & H0 & H1 & _ & Hc & Hp & _).
  assert (t0 !! key = None ∨ t1 !! key = None) as Hnone.
  { destruct Hno as [Hno | Hno]; [left | right];
      eapply missing_scalar_line; eassumption. }
  assert (raises (per_second t0 t1 key (sample_period th))) as [e He].
  { unfold per_second.
    destruct (t1 !! key) as [v1|] eqn:E1.
    - rewrite (getitem_Some _ _ _ E1). simpl.
      destruct Hnone as [E0 | E0]; [|discriminate].
      destruct (py_float v1); simpl; [|eexists; reflexivity].
      rewrite (getitem_None _ _ E0). eexists. reflexivity.
    - rewrite (getitem_None _ _ E1). eexists. reflexivity. }
  destruct Hkey as [-> | ->]; congruence.
Qed.

Definition text_no_ctxt : string := "cpu 150 0 0 950 0 0 0 0 0 0
processes 45".

Lemma scalar_lines_required_witness :
  raises (get_cpu_stats defaults initial text_one_cpu text_no_ctxt).
Proof.
  apply (scalar_lines_required defaults initial text_one_cpu text_no_ctxt
           "ctxt").
  - left. reflexivity.
  - right. unfold no_line_with.
    replace (split_lines text_no_ctxt)
      with ["cpu 150 0 0 950 0 0 0 0 0 0"; "processes 45"]
      by (vm_compute; reflexivity).
    repeat constructor.
Defined.

(** ** [check_status]: which severity comes back *)

Lemma all_false_or_some_true {A} (f : A → bool) (xs : list A) :
  Forall (λ x, f x = false) xs ∨ Exists (λ x, f x = true) xs.
Proof.
  induction xs as [|x xs [IH | IH]].
  - left. constructor.
  - destruct (f x) eqn:E.
    + right. by left.
    + left. by constructor.
  - right. by right.
Qed.

Section Evaluation.

Variable repr_float : Q → string.
Variable th : Thresholds.
Variable g : Globals.

(** The id reaches [warn] or [crit]. *)
Definition breach (cpu_id : string) : bool :=
  match cpu_percent g !! cpu_id with
  | Some p => ge_threshold p (crit th) || ge_threshold p (warn th)
  | None => false
  end.

(** The severity lines 149-153 assign for a breaching percentage. *)
Definition severity_of (p : pynum) : Z :=
  if ge_threshold p (crit th) then CRITICAL else WARNING.

Lemma status_step_cases st cpu_id p :
  cpu_percent g !! cpu_id = Some p →
  (breach cpu_id = false ∧ status_step repr_float th g st cpu_id = Ok st)
  ∨ (breach cpu_id = true
     ∧ ∃ m, status_step repr_float th g st cpu_id
            = Ok (severity_of p, st.2 ++ [m])).
Proof.
  intros Hp. destruct st as [sev msgs].
  unfold breach, severity_of, status_step.
  rewrite Hp, (getitem_Some _ _ _ Hp). simpl.
  destruct (ge_threshold p (crit th)); simpl; [right; eauto|].
  destruct (ge_threshold p (warn th)); simpl; [right; eauto|].
  by left.
Qed.

Lemma status_step_Ok_inv st cpu_id st' :
  status_step repr_float th g st cpu_id = Ok st' →
  ∃ p, cpu_percent g !! cpu_id = Some p.
Proof.
  destruct st as [sev msgs]. unfold status_step, getitem.
  destruct (cpu_percent g !! cpu_id) as [p|]; [eauto | discriminate].
Qed.

Lemma status_loop_quiet ids st :
  (∀ id, id ∈ ids → is_Some (cpu_percent g !! id)) →
  Forall (λ id, breach id = false) ids →
  for_each (status_step repr_float th g) st ids = Ok st.
Proof.
  intros Hsome Hq. apply for_each_skip.
  rewrite Forall_forall in *. intros id Hid.
  destruct (Hsome id Hid) as [p Hp].
  destruct (status_step_cases st id p Hp) as [[_ H] | [Hb _]]; [exact H|].
  rewrite (Hq id Hid) in Hb. discriminate.
Qed.

Lemma status_loop_spec ids st st' :
  for_each (status_step repr_float th g) st ids = Ok st' →
  (∀ id, id ∈ ids → is_Some (cpu_percent g !! id))
  ∧ length st'.2 = (length st.2 + length (List.filter breach ids))%nat
  ∧ (Forall (λ id, breach id = false) ids → st' = st)
  ∧ (Exists (λ id, breach id = true) ids →
     st'.1 = WARNING ∨ st'.1 = CRITICAL).
Proof.
  revert st. induction ids as [|x xs IH]; intros st; simpl.
  - intros [= <-]. repeat split.
    + intros id []%elem_of_nil.
    + lia.
    + intros H. inversion H.
  - intros (s1 & Hx & Hxs)%bind_Ok.
    destruct (IH _ Hxs) as (Hsome & Hlen & Hq & He).
    destruct (status_step_Ok_inv _ _ _ Hx) as [p Hp].
    split.
    { intros id [-> | Hid]%elem_of_cons; [eauto | by apply Hsome]. }
    destruct (status_step_cases st x p Hp) as [[Hb H] | [Hb [m H]]];
      rewrite H in Hx; injection Hx as <-; rewrite Hb.
    + split; [exact Hlen|]. split.
      * intros [_ Hxs']%Forall_cons. by apply Hq.
      * intros [Hx' | Hxs']%Exists_cons; [congruence | by apply He].
    + simpl in *. split; [rewrite Hlen, length_app; simpl; lia|]. split.
      * intros [Hx' _]%Forall_cons. congruence.
      * intros _.
        destruct (all_false_or_some_true breach xs) as [Hall | Hex].
        -- rewrite (Hq Hall). simpl. unfold severity_of.
           destruct (ge_threshold p (crit th)); [by right | by left].
        -- by apply He.
Qed.

End Evaluation.

Lemma status_loop_severity repr_float th g sev messages :
  status_loop repr_float th g = Ok (sev, messages) →
  sev = OK ∨ sev = WARNING ∨ sev = CRITICAL.
Proof.
  intros H. unfold status_loop in H.
  destruct (status_loop_spec repr_float th g _ _ _ H) as (_ & _ & Hq & He).
  destruct (all_false_or_some_true (breach th g) (cpu_id_list g))
    as [Hall | Hex].
  - left. by injection (Hq Hall).
  - right. by apply He.
Qed.

Lemma check_status_of_loop repr_float th g sev messages :
  status_loop repr_float th g = Ok (sev, messages) →
  check_status repr_float th g
  = Ok (sev, match messages with
             | [] => "OK: CPU usage is within normal parameters"
             | _ => join " " messages
             end).
Proof.
  intros H. unfold check_status. rewrite H. simpl.
  destruct messages; reflexivity.
Qed.

(** X10: when the evaluation returns, its severity is [OK], [WARNING] or
    [CRITICAL], never [UNKNOWN]; it is [OK] exactly when no id reaches
    [warn] or [crit], and then the message is the fixed one; otherwise
    there is one message per breaching id. *)
Theorem status_ok_iff_no_breach (repr_float : Q → string)
    (th : Thresholds) (g : Globals) (sev : Z) (messages : list string) :
  status_loop repr_float th g = Ok (sev, messages) →
  (sev = OK ∨ sev = WARNING ∨ sev = CRITICAL)
  ∧ (sev = OK ↔ Forall (λ id, breach th g id = false) (cpu_id_list g))
  ∧ length messages = length (List.filter (breach th g) (cpu_id_list g))
  ∧ check_status repr_float th g
    = Ok (sev, match messages with
               | [] => "OK: CPU usage is within normal parameters"
               | _ => join " " messages
               end).
Proof.
  intros H.
  split; [by eapply status_loop_severity|].
  split; [|split; [|by apply check_status_of_loop]].
  - unfold status_loop in H.
    destruct (status_loop_spec repr_float th g _ _ _ H) as (_ & _ & Hq & He).
    split.
    + intros ->.
      destruct (all_false_or_some_true (breach th g) (cpu_id_list g))
        as [Hall | Hex]; [exact Hall|].
      destruct (He Hex); discriminate.
    + intros Hall. by injection (Hq Hall).
  - unfold status_loop in H.
    by destruct (status_loop_spec repr_float th g _ _ _ H) as (_ & Hlen & _).
Qed.

Lemma status_ok_iff_no_breach_witness :
  let g := sampled defaults initial text_idle text_critical_then_warning in
  ∃ sev messages,
    status_loop (λ _, "99.0") defaults g = Ok (sev, messages)
    ∧ (sev = OK ∨ sev = WARNING ∨ sev = CRITICAL)
    ∧ (sev = OK
       ↔ Forall (λ id, breach defaults g id = false) (cpu_id_list g))
    ∧ length messages
      = length (List.filter (breach defaults g) (cpu_id_list g)).
Proof.
  intros g.
  assert (∃ sev messages,
            status_loop (λ _, "99.0") defaults g = Ok (sev, messages))
    as (sev & messages & H) by (eexists _, _; vm_compute; reflexivity).
  exists sev, messages. split; [exact H|].
  destruct (status_ok_iff_no_breach (λ _, "99.0") defaults g sev messages H)
    as (H1 & H2 & H3 & _).
  auto.
Defined.

(** X11: the severity returned is the one of the last breaching id of the
    list, whatever came before it. *)
Theorem last_breach_decides (repr_float : Q → string) (th : Thresholds)
    (g : Globals) (before after : list string) (cpu_id : string)
    (p : pynum) (sev : Z) (message : string) :
  cpu_id_list g = before ++ cpu_id :: after →
  cpu_percent g !! cpu_id = Some p →
  breach th g cpu_id = true →
  Forall (λ id, breach th g id = false) after →
  check_status repr_float th g = Ok (sev, message) →
  sev = if ge_threshold p (crit th) then CRITICAL else WARNING.
Proof.
  intros Hids Hp Hb Hafter H.
  unfold check_status in H.
  apply bind_Ok in H as ([sev' msgs] & Hloop & [= <- _]).
  unfold status_loop in Hloop. rewrite Hids, for_each_app in Hloop.
  apply bind_Ok in Hloop as (s1 & _ & Hrest). simpl in Hrest.
  apply bind_Ok in Hrest as (s2 & Hx & Hafter').
  destruct (status_step_cases repr_float th g s1 cpu_id p Hp)
    as [[Hb' _] | [_ [m Hm]]]; [congruence|].
  rewrite Hm in Hx. injection Hx as <-.
  destruct (status_loop_spec repr_float th g _ _ _ Hafter')
    as (_ & _ & Hq & _).
  by injection (Hq Hafter).
Qed.

Lemma last_breach_decides_witness :
  let g := sampled defaults initial text_idle text_critical_then_warning in
  ∃ p sev message,
    cpu_percent g !! "cpu0" = Some p
    ∧ check_status (λ _, "99.0") defaults g = Ok (sev, message)
    ∧ sev = if ge_threshold p (crit defaults) then CRITICAL else WARNING.
Proof.
  intros g.
  assert (∃ p, cpu_percent g !! "cpu0" = Some p) as [p Hp]
    by (eexists; vm_compute; reflexivity).
  assert (∃ sev message,
            check_status (λ _, "99.0") defaults g = Ok (sev, message))
    as (sev & message & H) by (eexists _, _; vm_compute; reflexivity).
  exists p, sev, message. split; [exact Hp|]. split; [exact H|].
  apply (last_breach_decides (λ _, "99.0") defaults g ["cpu"] [] "cpu0"
           p sev message).
  - vm_compute. reflexivity.
  - exact Hp.
  - unfold breach. rewrite Hp. revert Hp. vm_compute.
    intros [= <-]. reflexivity.
  - constructor.
  - exact H.
Defined.

Lemma for_each_ext {S A} (body body' : S → A → result S) (xs : list A) :
  (∀ s x, body s x = body' s x) →
  ∀ s, for_each body s xs = for_each body' s xs.
Proof.
  intros Hext. induction xs as [|x xs IH]; intros s; simpl; [reflexivity|].
  rewrite Hext. destruct (body' s x); simpl; [apply IH | reflexivity].
Qed.

Lemma status_step_reads repr_float th th' g g' st cpu_id :
  warn th = warn th' → crit th = crit th' →
  cpu_percent g = cpu_percent g' →
  status_step repr_float th g st cpu_id
  = status_step repr_float th' g' st cpu_id.
Proof.
  intros Hw Hc Hp. unfold status_step. destruct st. by rewrite Hw, Hc, Hp.
Qed.

(** X12: the evaluation reads [warn], [crit], the id list and the busy
    percentages, and nothing else: the per-core, io-wait and steal
    thresholds, the period and the io-wait and steal percentages have no
    influence on its result. *)
Theorem evaluation_reads_busy_only (repr_float : Q → string)
    (th th' : Thresholds) (g g' : Globals) :
  warn th = warn th' → crit th = crit th' →
  cpu_id_list g = cpu_id_list g' → cpu_percent g = cpu_percent g' →
  check_status repr_float th g = check_status repr_float th' g'.
Proof.
  intros Hw Hc Hids Hp. unfold check_status, status_loop. rewrite Hids.
  rewrite (for_each_ext _ (status_step repr_float th' g'));
    [reflexivity|].
  intros st x. by apply status_step_reads.
Qed.

Definition strict_elsewhere : Thresholds := {|
  warn := 95; crit := 98; per_cpu_warn := 1; per_cpu_crit := 2;
  io_warn := 1; io_crit := 2; io_warn_overall := 1;
  io_crit_overall := 2; steal_warn := 1; steal_crit := 2;
  sample_period := 7; perfdata_abs := 3
|}.

Lemma evaluation_reads_busy_only_witness :
  let g := sampled defaults initial text_idle text_iowait_and_steal in
  check_status (λ _, "0.0") defaults g
  = check_status (λ _, "0.0") strict_elsewhere
      (set_steal_percent "cpu0" (PyInt 99)
         (set_io_wait_percent "cpu0" (PyInt 99) g)).
Proof.
  intros g. apply evaluation_reads_busy_only; reflexivity.
Defined.

(** ** [main]: how the parts compose *)

Lemma status_loop_returns repr_float th g ids st :
  (∀ id, id ∈ ids → is_Some (cpu_percent g !! id)) →
  succeeds (for_each (status_step repr_float th g) st ids).
Proof.
  revert st. induction ids as [|x xs IH]; intros st Hsome; simpl.
  - eexists. reflexivity.
  - destruct (Hsome x) as [p Hp]; [by left|].
    destruct (status_step_cases repr_float th g st x p Hp)
      as [[_ ->] | [_ [m ->]]]; simpl;
      apply IH; intros id Hid; apply Hsome; by right.
Qed.

(** X13: once the sampling has returned, the rest of the run cannot fail: the
    run prints the evaluation message, [" | "] and the performance data,
    and exits with [OK], [WARNING] or [CRITICAL].  If the sampling raises,
    the run raises the same error and prints nothing. *)
Theorem run_follows_sampling (repr_float : Q → string) (th : Thresholds)
    (text_t0 text_t1 : string) :
  match get_cpu_stats th initial text_t0 text_t1 with
  | Ok g =>
      ∃ exit_code result_message perf_message,
        check_status repr_float th g = Ok (exit_code, result_message)
        ∧ performance_data repr_float th g = Ok perf_message
        ∧ main repr_float th text_t0 text_t1
          = Ok (result_message +:+ " | " +:+ perf_message, exit_code)
        ∧ (exit_code = OK ∨ exit_code = WARNING ∨ exit_code = CRITICAL)
  | Raise e => main repr_float th text_t0 text_t1 = Raise e
  end.
Proof.
  unfold main.
  destruct (get_cpu_stats th initial text_t0 text_t1) as [g|e] eqn:H;
    [|reflexivity].
  destruct (sampled_ids _ _ _ _ _ H) as [_ Hsome].
  destruct (status_loop_returns repr_float th g (cpu_id_list g) (OK, []))
    as [[sev msgs] Hloop].
  { intros id Hid. by apply Hsome. }
  pose proof (status_loop_severity _ _ _ _ _ Hloop) as Hsev.
  pose proof (check_status_of_loop _ _ _ _ _ Hloop) as Hcheck.
  assert (performance_data repr_float th g
          = Ok (join " " (flat_map (triplet repr_float th g)
                            (cpu_id_list g)))) as Hperf.
  { unfold performance_data, perf_message_array.
    rewrite (perf_loop_Ok repr_float th g _ [] Hsome). reflexivity. }
  eexists _, _, _. split; [exact Hcheck|]. split; [exact Hperf|].
  split; [|exact Hsev].
  simpl. rewrite Hperf, Hcheck. reflexivity.
Qed.

(** ** The report functions on their own *)

(** X14: called on variables in which an id of the list has no busy
    percentage, both report functions raise [KeyError] for the first such
    id. *)
Theorem report_needs_percentages (repr_float : Q → string)
    (th : Thresholds) (g : Globals) (before after : list string)
    (cpu_id : string) :
  cpu_id_list g = before ++ cpu_id :: after →
  (∀ id, id ∈ before →
     is_Some (cpu_percent g !! id) ∧ is_Some (io_wait_percent g !! id)
     ∧ is_Some (steal_percent g !! id)) →
  cpu_percent g !! cpu_id = None →
  performance_data repr_float th g = Raise (KeyError cpu_id)
  ∧ check_status repr_float th g = Raise (KeyError cpu_id).
Proof.
  intros Hids Hbefore Hnone. split.
  - unfold performance_data, perf_message_array.
    rewrite Hids, for_each_app, (perf_loop_Ok _ _ _ _ _ Hbefore). simpl.
    rewrite (perf_step_missing _ _ _ _ _ Hnone). reflexivity.
  - unfold check_status, status_loop. rewrite Hids, for_each_app.
    destruct (status_loop_returns repr_float th g before (OK, []))
      as [[sev msgs] ->].
    { intros id Hid. by apply Hbefore. }
    simpl. rewrite (getitem_None _ _ Hnone). reflexivity.
Qed.

Lemma report_needs_percentages_witness :
  performance_data (λ _, "0.0") defaults
    (set_cpu_id_list ["cpu"] initial) = Raise (KeyError "cpu")
  ∧ check_status (λ _, "0.0") defaults
      (set_cpu_id_list ["cpu"] initial) = Raise (KeyError "cpu").
Proof.
  apply (report_needs_percentages (λ _, "0.0") defaults
           (set_cpu_id_list ["cpu"] initial) [] [] "cpu").
  - reflexivity.
  - intros id []%elem_of_nil.
  - reflexivity.
Defined.

(** ** Properties of the command line *)

(** The names [getopt] returns for the options that take a number, each
    with the assignment the usage text documents for it. *)
Definition numeric_options : list (string * (Z → Thresholds → Thresholds)) :=
  [ ("-w", set_warn); ("--warn", set_warn);
    ("-c", set_crit); ("--crit", set_crit);
    ("-W", set_per_cpu_warn); ("--warn-any", set_per_cpu_warn);
    ("-C", set_per_cpu_crit); ("--crit-any", set_per_cpu_crit);
    ("-i", set_io_warn); ("--io-warn", set_io_warn);
    ("-I", set_io_crit); ("--io-crit", set_io_crit);
    ("--io-warn-overall", set_io_warn_overall);
    ("--io-crit-overall", set_io_crit_overall);
    ("-s", set_steal_warn); ("--steal-warn", set_steal_warn);
    ("-S", set_steal_crit); ("--steal-crit", set_steal_crit);
    ("-p", set_sample_period); ("--period", set_sample_period) ].

(** The option names that change a variable no report function reads. *)
Definition inert_options : list string :=
  [ "-W"; "--warn-any"; "-C"; "--crit-any"; "--io-warn-overall";
    "--io-crit-overall"; "-a"; "--abs"; "-A"; "--abs-only" ].

Lemma int_arg_raises arg e : int_arg arg = Raise e → e = ValueError.
Proof.
  unfold int_arg. apply py_int_raises.
Qed.

(** X15: every numeric option, under its short and its long name, stores
    [int] of its value in its own variable and touches no other; the
    substring tests of lines 179 and 181 capture no other option of the
    table.  A value that [int] rejects is not reported with the usage
    text: the [ValueError] escapes. *)
Theorem numeric_option_stores_value (name : string)
    (set : Z → Thresholds → Thresholds) (th : Thresholds) (arg : string) :
  (name, set) ∈ numeric_options →
  option_step th (name, arg) =
    match int_arg arg with
    | Ok z => Continue (set z th)
    | Raise _ => Uncaught ValueError
    end.
Proof.
  intros H.
  assert (option_step th (name, arg) = assign_int set arg th) as ->.
  { unfold numeric_options in H.
    repeat (apply elem_of_cons in H as [[= -> ->] | H]; [reflexivity|]).
    inversion H. }
  unfold assign_int. destruct (int_arg arg) as [z|e] eqn:E; [reflexivity|].
  by rewrite (int_arg_raises _ _ E).
Qed.

Lemma numeric_option_stores_value_witness :
  option_step defaults ("--io-crit-overall", " 97 ")
  = Continue (set_io_crit_overall 97 defaults)
  ∧ option_step defaults ("-s", "thirty") = Uncaught ValueError.
Proof.
  split.
  - apply (numeric_option_stores_value "--io-crit-overall"
             set_io_crit_overall defaults " 97 ").
    vm_compute. do 13 right. left.
  - apply (numeric_option_stores_value "-s" set_steal_warn defaults
             "thirty").
    vm_compute. do 14 right. left.
Defined.

Lemma options_loop_app th a b :
  options_loop th (a ++ b) =
    match options_loop th a with
    | Continue th' => options_loop th' b
    | other => other
    end.
Proof.
  revert th. induction a as [|oa a IH]; intros th; simpl; [reflexivity|].
  destruct (option_step th oa); [apply IH | reflexivity | reflexivity].
Qed.

(** X16: the version option ends the option loop where it stands: the options
    before it have been processed (and one of them may already have ended
    the run), the options after it are never looked at, not even to
    reject a bad value; the run prints [Version] and exits with [OK]. *)
Theorem version_option_stops (th : Thresholds)
    (before after : list (string * string)) (args : list string)
    (name arg : string) :
  name = "-V" ∨ name = "--version" →
  command_line_validate th (Some (before ++ (name, arg) :: after, args)) =
    match options_loop th before with
    | Continue _ => SysExit Version OK
    | other => other
    end.
Proof.
  intros Hname. simpl. rewrite options_loop_app.
  destruct (options_loop th before); try reflexivity.
  simpl. destruct Hname as [-> | ->]; reflexivity.
Qed.

Lemma version_option_stops_witness :
  command_line_validate defaults
    (Some ([("-w", "80"); ("-V", ""); ("-c", "ninety")], []))
  = SysExit Version OK
  ∧ command_line_validate defaults
      (Some ([("-c", "ninety"); ("-V", "")], []))
    = Uncaught ValueError.
Proof.
  split.
  - apply (version_option_stops defaults [("-w", "80")]
             [("-c", "ninety")] [] "-V" "").
    left. reflexivity.
  - apply (version_option_stops defaults [("-c", "ninety")] [] [] "-V" "").
    left. reflexivity.
Defined.

(** The performance data reads the six thresholds it prints, the id list
    and the three dictionaries, and nothing else. *)
Lemma performance_data_reads repr_float th th' g :
  warn th = warn th' → crit th = crit th' →
  io_warn th = io_warn th' → io_crit th = io_crit th' →
  steal_warn th = steal_warn th' → steal_crit th = steal_crit th' →
  performance_data repr_float th g = performance_data repr_float th' g.
Proof.
  intros H1 H2 H3 H4 H5 H6. unfold performance_data, perf_message_array.
  rewrite (for_each_ext _ (perf_step repr_float th' g)); [reflexivity|].
  intros arr x. unfold perf_step. by rewrite H1, H2, H3, H4, H5, H6.
Qed.

(** The six thresholds that the report functions read are the same. *)
Definition same_report_thresholds (th th' : Thresholds) : Prop :=
  warn th' = warn th ∧ crit th' = crit th
  ∧ io_warn th' = io_warn th ∧ io_crit th' = io_crit th
  ∧ steal_warn th' = steal_warn th ∧ steal_crit th' = steal_crit th.

Lemma inert_option_dispatch name th arg :
  name ∈ inert_options →
  (∃ set, (∀ z t, same_report_thresholds t (set z t))
          ∧ option_step th (name, arg) = assign_int set arg th)
  ∨ (∃ k, option_step th (name, arg) = Continue (set_perfdata_abs k th)).
Proof.
  intros H. unfold inert_options in H.
  repeat (apply elem_of_cons in H as [-> | H];
          [ first [ left; eexists; split; [|reflexivity];
                    intros; repeat split; reflexivity
                  | right; eexists; reflexivity ]
          | ]).
  inversion H.
Qed.

(** X17: the per-core options, the overall io-wait options and the two
    absolute-mode flags are accepted and change nothing: whatever value
    they are given, the evaluation and the performance data of a run are
    the same as without them. *)
Theorem inert_options_change_nothing (repr_float : Q → string)
    (th th' : Thresholds) (g : Globals) (name arg : string) :
  name ∈ inert_options →
  option_step th (name, arg) = Continue th' →
  check_status repr_float th' g = check_status repr_float th g
  ∧ performance_data repr_float th' g = performance_data repr_float th g.
Proof.
  intros Hname Hstep.
  assert (same_report_thresholds th th') as (H1 & H2 & H3 & H4 & H5 & H6).
  { destruct (inert_option_dispatch name th arg Hname)
      as [(set & Hset & Hd) | (k & Hd)]; rewrite Hd in Hstep.
    - unfold assign_int in Hstep. destruct (int_arg arg); [|discriminate].
      injection Hstep as <-. apply Hset.
    - injection Hstep as <-. repeat split; reflexivity. }
  split.
  - unfold check_status, status_loop.
    rewrite (for_each_ext _ (status_step repr_float th g));
      [reflexivity|].
    intros st x. by apply status_step_reads.
  - by apply performance_data_reads.
Qed.

Lemma inert_options_change_nothing_witness :
  let g := sampled defaults initial text_idle text_one_core_pegged in
  check_status (λ _, "0.0") (set_per_cpu_crit 5 defaults) g
  = check_status (λ _, "0.0") defaults g
  ∧ performance_data (λ _, "0.0") (set_per_cpu_crit 5 defaults) g
    = performance_data (λ _, "0.0") defaults g.
Proof.
  intros g.
  apply (inert_options_change_nothing (λ _, "0.0") defaults
           (set_per_cpu_crit 5 defaults) g "--crit-any" "5").
  - vm_compute. do 3 right. left.
  - vm_compute. reflexivity.
Defined.
